(** * DEEPaaS training endpoints: the in-memory job registry

    Shallow embedding of [deepaas/api/v2/train.py] (the [Handler] class built
    by [_get_handler]) and properties of its four request handlers:
    [post] (submit), [get] (status), [index] (list) and [delete] (cancel).

    The handler keeps a Python [dict] [_trainings] from job identifier to a
    two-key record [{"date": ..., "task": ...}].  The task is an asyncio
    execution handle; the handler only ever calls [cancelled()], [done()],
    [exception()] and [cancel()] on it and awaits it through
    [asyncio.wait_for].  The task objects live outside the handler, so the
    model keeps them in a store indexed by task identity and the record holds
    the identity only. *)

From Stdlib Require Import String List Bool Arith Lia.
Import ListNotations.
Open Scope string_scope.

(* ------------------------------------------------------------------ *)
(** ** Python dictionaries (insertion ordered) *)

Module Dict.
Section Dict.
Context {V : Type}.

Definition t := list (string * V).

(** [d.get(k, None)] *)
Fixpoint get (d : t) (k : string) : option V :=
  match d with
  | [] => None
  | (k', v) :: rest => if String.eqb k k' then Some v else get rest k
  end.

(** [d[k] = v]: an existing key keeps its position, a new key goes last. *)
Fixpoint set (d : t) (k : string) (v : V) : t :=
  match d with
  | [] => [(k, v)]
  | (k', v') :: rest =>
      if String.eqb k k' then (k', v) :: rest else (k', v') :: set rest k v
  end.

(** [d.items()] *)
Definition items (d : t) : list (string * V) := d.

Definition keys (d : t) : list string := map fst d.

(** [k in d] *)
Definition mem (d : t) (k : string) : bool :=
  match get d k with Some _ => true | None => false end.

(** [bool(d)]: a dictionary is falsy exactly when it is empty. *)
Definition truthy (d : t) : bool :=
  match d with [] => false | _ :: _ => true end.
End Dict.
Arguments t : clear implicits.
End Dict.

(* ------------------------------------------------------------------ *)
(** ** Exceptions and results *)

(** The exception classes the handlers can meet.  [TimeoutError] is
    [asyncio.TimeoutError] (and anything derived from it), the only class the
    [except] clause of [delete] names. *)
Inductive ExcClass :=
| TimeoutError
| CancelledError
| InvalidStateError
| HTTPNotFound
| OtherError (name : string).

(** An exception instance: its class, [str(exc)], which is what
    ["%s" % exc] renders, and [bool(exc)], which is what [if exc:] tests.
    [bool(exc)] is true unless the class of the exception defines
    [__bool__] or [__len__] to answer otherwise. *)
Record Exc := mkException {
  exc_class : ExcClass;
  exc_str : string;
  exc_bool : bool
}.

(** An exception of a class that leaves the boolean test alone, as the
    built-in classes and the ones of asyncio and aiohttp do. *)
Definition mkExc (c : ExcClass) (s : string) : Exc := mkException c s true.

Definition is_TimeoutError (e : Exc) : bool :=
  match exc_class e with TimeoutError => true | _ => false end.

Inductive Result (A : Type) :=
| Ok (a : A)
| Raise (e : Exc).
Arguments Ok {A} a.
Arguments Raise {A} e.

(* ------------------------------------------------------------------ *)
(** ** asyncio tasks *)

(** How a finished execution ended. *)
Inductive Terminal :=
| TCancelled                 (* the CANCELLED state *)
| TResult                    (* FINISHED with a result *)
| TException (e : Exc).      (* FINISHED with an exception set *)

(** The state of a task.  A pending task remembers whether [cancel()] has
    been requested on it ([_must_cancel]). *)
Inductive TaskState :=
| Pending (must_cancel : bool)
| Terminated (o : Terminal).

(** [task.cancelled()] *)
Definition cancelled (s : TaskState) : bool :=
  match s with Terminated TCancelled => true | _ => false end.

(** [task.done()]: true in every state but PENDING, the cancelled one
    included. *)
Definition done (s : TaskState) : bool :=
  match s with Pending _ => false | Terminated _ => true end.

(** [task.exception()]: raises [CancelledError] on a cancelled task and
    [InvalidStateError] on a pending one; otherwise returns the exception
    that was set, or [None]. *)
Definition exception (s : TaskState) : Result (option Exc) :=
  match s with
  | Pending _ => Raise (mkExc InvalidStateError "Exception is not set.")
  | Terminated TCancelled => Raise (mkExc CancelledError "")
  | Terminated TResult => Ok None
  | Terminated (TException e) => Ok (Some e)
  end.

(** [task.result()], as [wait_for] calls it on a finished task. *)
Definition result (o : Terminal) : Result unit :=
  match o with
  | TCancelled => Raise (mkExc CancelledError "")
  | TResult => Ok tt
  | TException e => Raise e
  end.

(** The effect of [task.cancel()] on the state: nothing on a finished task,
    a cancellation request on a pending one. *)
Definition cancel_state (s : TaskState) : TaskState :=
  match s with
  | Pending _ => Pending true
  | Terminated o => Terminated o
  end.

(** Truth value of [exc] in [if exc:]: [None] is false, an exception
    object is what its [bool] says. *)
Definition exc_truthy (exc : option Exc) : bool :=
  match exc with Some e => exc_bool e | None => false end.

(** ["%s" % exc] *)
Definition fmt_s (exc : option Exc) : string :=
  match exc with Some e => exc_str e | None => "None" end.

(* ------------------------------------------------------------------ *)
(** ** JSON payloads and responses *)

#[local] Unset Elimination Schemes.
Inductive Json :=
| JNull
| JString (s : string)
| JObject (d : list (string * Json))
| JArray (l : list Json).
#[local] Set Elimination Schemes.

(** What [web.json_response] serialises: a Python value that is either
    [None] or a dictionary. *)
Definition to_json (ret : option (Dict.t Json)) : Json :=
  match ret with
  | None => JNull
  | Some d => JObject d
  end.

Record Response := mkResponse { status_code : nat; body : Json }.

(** [web.json_response(data)] answers with status 200. *)
Definition json_response (data : Json) : Response := mkResponse 200 data.

(* ------------------------------------------------------------------ *)
(** ** Handler state and the handler monad *)

(** Task identity. *)
Definition Task := nat.

(** One entry of [_trainings]: [{"date": ..., "task": ...}]. *)
Record Training := mkTraining { date : string; task : Task }.

(** The record is a dictionary with two keys, hence always true in
    [if not training]. *)
Definition training_truthy (t : option Training) : bool :=
  match t with Some _ => true | None => false end.

Record State := mkState {
  _trainings : Dict.t Training;     (* self._trainings *)
  tasks : Task -> TaskState;        (* the state of every task object *)
  log : list string                 (* what LOG.info has emitted *)
}.

(** A handler computation: runs on a state, ends normally or by raising. *)
Definition M (A : Type) := State -> Result A * State.

Definition ret {A} (a : A) : M A := fun st => (Ok a, st).

Definition raise {A} (e : Exc) : M A := fun st => (Raise e, st).

Definition bind {A B} (m : M A) (k : A -> M B) : M B :=
  fun st =>
    match m st with
    | (Ok a, st') => k a st'
    | (Raise e, st') => (Raise e, st')
    end.

Definition lift {A} (r : Result A) : M A := fun st => (r, st).

Definition gets {A} (f : State -> A) : M A := fun st => (Ok (f st), st).

Definition modify (f : State -> State) : M unit := fun st => (Ok tt, f st).

Declare Scope handler_scope.
Delimit Scope handler_scope with handler.
Notation "x <- m ;; k" := (bind m (fun x => k))
  (at level 100, m at next level, right associativity) : handler_scope.
Notation "m ;;; k" := (bind m (fun _ => k))
  (at level 100, right associativity) : handler_scope.
Open Scope handler_scope.

(** [try: m except asyncio.TimeoutError: pass] *)
Definition try_except_TimeoutError_pass (m : M unit) : M unit :=
  fun st =>
    match m st with
    | (Ok u, st') => (Ok u, st')
    | (Raise e, st') =>
        if is_TimeoutError e then (Ok tt, st') else (Raise e, st')
    end.

Definition set_task (t : Task) (s : TaskState) (st : State) : State :=
  mkState (_trainings st)
          (fun t' => if Nat.eqb t' t then s else tasks st t')
          (log st).

Definition set_trainings (d : Dict.t Training) (st : State) : State :=
  mkState d (tasks st) (log st).

(** [LOG.info(msg)] *)
Definition LOG_info (msg : string) : M unit :=
  modify (fun st => mkState (_trainings st) (tasks st) (log st ++ [msg])%list).

(** [task.cancel()] *)
Definition cancel (t : Task) : M bool :=
  fun st =>
    let s := tasks st t in
    (Ok (negb (done s)), set_task t (cancel_state s) st).

(* ------------------------------------------------------------------ *)
(** ** The environment of an await *)

(** What [wait_for] does when the timeout fires before the task has
    ended.  In every version it cancels the task.  Python 3.5 and 3.6 then
    raise [TimeoutError] at once; Python 3.7 first waits for the task to
    end and then raises [TimeoutError]; later versions wait for the task to
    end and raise [TimeoutError] only if it ended cancelled, and otherwise
    return its late result or raise its late exception. *)
Inductive TimeoutPolicy :=
| GiveUp
| JoinThenTimeout
| JoinThenResult.

(** What happens once [delete] suspends on the task: the task reaches the
    terminal state [outcome] after [delay] time units, and [policy] is how
    the [wait_for] at hand treats a timeout. *)
Record Reaction := mkReaction {
  delay : nat;
  outcome : Terminal;
  policy : TimeoutPolicy
}.

(** Whether [wait_for] returns only after the task has ended. *)
Definition joined (r : Reaction) : bool :=
  match policy r with
  | GiveUp => false
  | JoinThenTimeout | JoinThenResult => true
  end.

(** What [wait_for] ends with when the timeout has fired and the task has
    then ended with [o]. *)
Definition late_result (p : TimeoutPolicy) (o : Terminal) : Result unit :=
  match p, o with
  | JoinThenResult, TResult => Ok tt
  | JoinThenResult, TException e => Raise e
  | _, _ => Raise (mkExc TimeoutError "")
  end.

(** [await asyncio.wait_for(task, timeout)].  A task that is already
    finished, or that finishes before the timeout, makes [wait_for] return
    [task.result()], which re-raises the task's exception or
    [CancelledError].  Otherwise [wait_for] cancels the task and goes on as
    its [policy] says. *)
Definition wait_for (t : Task) (timeout : nat) (r : Reaction) : M unit :=
  fun st =>
    match tasks st t with
    | Terminated o => (result o, st)
    | Pending _ =>
        if Nat.ltb (delay r) timeout
        then (result (outcome r), set_task t (Terminated (outcome r)) st)
        else (late_result (policy r) (outcome r),
              set_task t (if joined r then Terminated (outcome r)
                          else Pending true) st)
    end.

(* ------------------------------------------------------------------ *)
(** ** The handler *)

Module Handler.

(** [Handler.__init__]: [self._trainings = {}] *)
Definition init (tasks0 : Task -> TaskState) : State :=
  mkState [] tasks0 [].

(** The [if/elif/else] chain of [build_train_response], lines 55-65, run
    on the task's current state and extending [ret].  [exception_] is the
    task's [exception()] method. *)
Definition build_status_with
    (exception_ : TaskState -> Result (option Exc))
    (s : TaskState) (ret0 : Dict.t Json) : Result (Dict.t Json) :=
  if cancelled s then
    Ok (Dict.set ret0 "status" (JString "cancelled"))
  else if done s then
    match exception_ s with
    | Raise e => Raise e
    | Ok exc =>
        if exc_truthy exc then
          let ret1 := Dict.set ret0 "status" (JString "error") in
          Ok (Dict.set ret1 "message" (JString (fmt_s exc)))
        else
          Ok (Dict.set ret0 "status" (JString "done"))
    end
  else
    Ok (Dict.set ret0 "status" (JString "running")).

Definition build_status := build_status_with exception.

Definition build_train_response (uuid_ : string)
  : M (option (Dict.t Json)) :=
  training <- gets (fun st => Dict.get (_trainings st) uuid_) ;;
  match training with
  | None => ret None
  | Some tr =>
      if negb (training_truthy training) then ret None else
      let ret0 := [] in
      let ret1 := Dict.set ret0 "date" (JString (date tr)) in
      let ret2 := Dict.set ret1 "uuid" (JString uuid_) in
      s <- gets (fun st => tasks st (task tr)) ;;
      ret3 <- lift (build_status s ret2) ;;
      ret (Some ret3)
  end.

(** [post]: [uuid_] is [uuid.uuid4().hex], [now] is
    [str(datetime.datetime.now())] and [train_task] is the task returned
    by [self.model_obj.train( **args )].  Nothing is awaited. *)
Definition post (uuid_ now : string) (train_task : Task) : M Response :=
  modify (fun st =>
    set_trainings (Dict.set (_trainings st) uuid_ (mkTraining now train_task)) st) ;;;
  r <- build_train_response uuid_ ;;
  ret (json_response (to_json r)).

(** The grace period of [delete], in the time unit of [wait_for]. *)
Definition grace_period : nat := 5.

(** [delete]: [uuid_] is [request.match_info["uuid"]]; [env] is what the
    task does while the handler is suspended. *)
Definition delete (uuid_ : string) (env : Reaction) : M Response :=
  training <- gets (fun st => Dict.get (_trainings st) uuid_) ;;
  match training with
  | None => raise (mkExc HTTPNotFound "Not Found")
  | Some tr =>
      if negb (training_truthy training)
      then raise (mkExc HTTPNotFound "Not Found") else
      cancel (task tr) ;;;
      try_except_TimeoutError_pass (wait_for (task tr) grace_period env) ;;;
      LOG_info ("Training " ++ uuid_ ++ " has been cancelled") ;;;
      r <- build_train_response uuid_ ;;
      ret (json_response (to_json r))
  end.

(** The [for] loop of [index] over [self._trainings.items()]. *)
Fixpoint index_loop (items : list (string * Training)) (acc : list Json)
  : M (list Json) :=
  match items with
  | [] => ret acc
  | (uuid_, _) :: rest =>
      aux <- build_train_response uuid_ ;;
      index_loop rest (acc ++ [to_json aux])%list
  end.

Definition index : M Response :=
  items <- gets (fun st => Dict.items (_trainings st)) ;;
  l <- index_loop items [] ;;
  ret (json_response (JArray l)).

(** [bool(ret)] in [get]: [None] and the empty dictionary are false. *)
Definition ret_truthy (r : option (Dict.t Json)) : bool :=
  match r with None => false | Some d => Dict.truthy d end.

Definition get (uuid_ : string) : M Response :=
  r <- build_train_response uuid_ ;;
  if ret_truthy r then ret (json_response (to_json r))
  else raise (mkExc HTTPNotFound "Not Found").

End Handler.

(* ------------------------------------------------------------------ *)
(** ** The status rule in the specification's words *)

(** The exception recorded on a finished execution, if any. *)
Definition recorded_failure (s : TaskState) : option Exc :=
  match s with Terminated (TException e) => Some e | _ => None end.

(** The failure flag as the specification has it: a failure is recorded. *)
Definition has_failure (s : TaskState) : bool :=
  match recorded_failure s with Some _ => true | None => false end.

(** The failure flag as line 59 reads it: the recorded exception is true
    in a boolean test. *)
Definition failure_seen (s : TaskState) : bool :=
  exc_truthy (recorded_failure s).

(** Cancelled first, then terminal (error when a failure is recorded,
    otherwise done), otherwise running. *)
Definition status_by_order (is_cancelled is_terminal failed : bool) : string :=
  if is_cancelled then "cancelled"
  else if is_terminal then (if failed then "error" else "done")
  else "running".

(** The status the handler derives. *)
Definition derived_status (s : TaskState) : string :=
  status_by_order (cancelled s) (done s) (failure_seen s).

(** The status the specification asks for. *)
Definition specified_status (s : TaskState) : string :=
  status_by_order (cancelled s) (done s) (has_failure s).

Definition statuses : list string := ["cancelled"; "error"; "done"; "running"].

(** A run of submissions: the identifier, the timestamp and the task of
    each [post], in order. *)
Record Submission := mkSubmission {
  sub_uuid : string;
  sub_now : string;
  sub_task : Task
}.

Fixpoint submit_all (subs : list Submission) (st : State) : State :=
  match subs with
  | [] => st
  | s :: rest =>
      submit_all rest (snd (Handler.post (sub_uuid s) (sub_now s) (sub_task s) st))
  end.

(* ------------------------------------------------------------------ *)
(** ** Auxiliary definitions for the proofs *)

(** Case analysis on the state of a task, down to the truth value of a
    recorded exception. *)
Ltac task_cases s := destruct s as [?b|[| |[?c ?m [|]]]].

Ltac unfold_M :=
  unfold bind, ret, raise, lift, gets, modify, LOG_info, cancel,
         try_except_TimeoutError_pass in *.

(** The two entries every snapshot starts from. *)
Definition base_snapshot (uuid_ : string) (tr : Training) : Dict.t Json :=
  [("date", JString (date tr)); ("uuid", JString uuid_)].

(** The snapshot of a present job, by the state of its task. *)
Definition snapshot_of (uuid_ : string) (tr : Training) (s : TaskState)
  : Dict.t Json :=
  ([("date", JString (date tr)); ("uuid", JString uuid_);
    ("status", JString (derived_status s))] ++
   (if failure_seen s
    then [("message", JString (fmt_s (recorded_failure s)))]
    else []))%list.

(** What [build_train_response] returns, as a function of the state. *)
Definition snapshot (st : State) (uuid_ : string) : option (Dict.t Json) :=
  match Dict.get (_trainings st) uuid_ with
  | None => None
  | Some tr => Some (snapshot_of uuid_ tr (tasks st (task tr)))
  end.

Definition record_of (s : Submission) : string * Training :=
  (sub_uuid s, mkTraining (sub_now s) (sub_task s)).

(** A computation respects a relation between the state before and the
    state after when every run of it does. *)
Definition respects {A} (P : State -> State -> Prop) (m : M A) : Prop :=
  forall st, P st (snd (m st)).

(** What [delete] may touch: the state of one task and the log. *)
Definition only_task (t : Task) (st st' : State) : Prop :=
  _trainings st' = _trainings st /\
  forall t', t' <> t -> tasks st' t' = tasks st t'.

(** The state of the awaited task when [delete] resumes. *)
Definition after_await (s : TaskState) (env : Reaction) : TaskState :=
  match s with
  | Terminated o => Terminated o
  | Pending _ =>
      if Nat.ltb (delay env) Handler.grace_period then Terminated (outcome env)
      else if joined env then Terminated (outcome env) else Pending true
  end.

(** What is left of the result of [wait_for] after the [except] clause:
    [None] when control reaches the statement after the [try] block, the
    exception that leaves [delete] otherwise. *)
Definition leaves (r : Result unit) : option Exc :=
  match r with
  | Ok _ => None
  | Raise e => if is_TimeoutError e then None else Some e
  end.

Definition escapes (s : TaskState) (env : Reaction) : option Exc :=
  match s with
  | Terminated o => leaves (result o)
  | Pending _ =>
      if Nat.ltb (delay env) Handler.grace_period
      then leaves (result (outcome env))
      else leaves (late_result (policy env) (outcome env))
  end.

Definition note (uuid_ : string) : string :=
  "Training " ++ uuid_ ++ " has been cancelled".

(* ------------------------------------------------------------------ *)
(** ** Example registries *)

Module Examples.
Definition bad_data : Exc := mkExc (OtherError "ValueError") "bad data".


(** Four tasks, one in each kind of state. *)
Definition tasks4 (t : Task) : TaskState :=
  match t with
  | 1 => Terminated TResult
  | 2 => Terminated (TException bad_data)
  | 3 => Terminated TCancelled
  | _ => Pending false
  end.

Definition subs4 : list Submission :=
  [ mkSubmission "A1" "2019-04-01 10:00:00.000000" 0;
    mkSubmission "A2" "2019-04-01 10:00:01.000000" 1;
    mkSubmission "B1" "2019-04-01 10:00:02.000000" 2;
    mkSubmission "C1" "2019-04-01 10:00:03.000000" 3 ].

Definition st4 : State := submit_all subs4 (Handler.init tasks4).

(** One job, still running. *)
Definition running_job : State :=
  submit_all [mkSubmission "C1" "2019-04-01 10:00:00.000000" 0]
             (Handler.init (fun _ => Pending false)).

(** One job whose work raised [ValueError("bad data")]. *)
Definition failed_job : State :=
  submit_all [mkSubmission "B1" "2019-04-01 10:00:00.000000" 0]
             (Handler.init (fun _ => Terminated (TException bad_data))).


(** An [exception()] that answers [None] where the real one raises. *)
Definition lenient_exception (s : TaskState) : Result (option Exc) :=
  match s with
  | Terminated (TException e) => Ok (Some e)
  | _ => Ok None
  end.

(** The work honours the cancellation after one time unit. *)
Definition honours_quickly : Reaction := mkReaction 1 TCancelled JoinThenResult.

(** The work needs seven time units, more than the grace period, to end
    cancelled. *)
Definition too_slow : Reaction := mkReaction 7 TCancelled JoinThenResult.

(** The work swallows the cancellation and raises after seven units. *)
Definition fails_late : Reaction :=
  mkReaction 7 (TException bad_data) JoinThenResult.

(** An exception object that is false in a boolean test, as one of a class
    with [__bool__] returning [False] or [__len__] returning [0]. *)
Definition quiet_failure : Exc := mkException (OtherError "Quiet") "quiet" false.

(** One job whose work raised such an exception. *)
Definition quietly_failed_job : State :=
  submit_all [mkSubmission "B1" "2019-04-01 10:00:00.000000" 0]
             (Handler.init (fun _ => Terminated (TException quiet_failure))).
End Examples.


(* ------------------------------------------------------------------ *)
(** ** Sequences of requests *)

(** What reaches one handler over time: the four kinds of request, and the
    tasks running on between two requests. *)
Inductive Request :=
| ReqPost (uuid_ now : string) (train_task : Task)
| ReqGet (uuid_ : string)
| ReqIndex
| ReqDelete (uuid_ : string) (env : Reaction)
| Progress (tasks' : Task -> TaskState).

(** The state a request leaves behind, whether it answers or raises. *)
Definition serve (r : Request) (st : State) : State :=
  match r with
  | ReqPost uuid_ now train_task => snd (Handler.post uuid_ now train_task st)
  | ReqGet uuid_ => snd (Handler.get uuid_ st)
  | ReqIndex => snd (Handler.index st)
  | ReqDelete uuid_ env => snd (Handler.delete uuid_ env st)
  | Progress tasks' => mkState (_trainings st) tasks' (log st)
  end.

Fixpoint serve_all (rs : list Request) (st : State) : State :=
  match rs with
  | [] => st
  | r :: rest => serve_all rest (serve r st)
  end.

(** The request submits under [uuid_]. *)
Definition posts_under (uuid_ : string) (r : Request) : bool :=
  match r with
  | ReqPost u _ _ => String.eqb u uuid_
  | _ => false
  end.

(* ------------------------------------------------------------------ *)
(** ** Route registration *)

Inductive Method := POST | GET | HEAD | DELETE.

(** The bound methods of a handler that [setup_routes] registers. *)
Inductive Endpoint := hdlr_post | hdlr_index | hdlr_get | hdlr_delete.

(** One registered route: the HTTP method, the path pattern, and the
    handler method it is bound to, [owner] being the model the handler was
    built for by [_get_handler]. *)
Record Route := mkRoute {
  method : Method;
  path : string;
  owner : string;
  endpoint : Endpoint
}.

(** ["/models/%s/train" % model_name] *)
Definition train_path (model_name : string) : string :=
  "/models/" ++ model_name ++ "/train".

(** ["/models/%s/train/{uuid}" % model_name] *)
Definition train_uuid_path (model_name : string) : string :=
  "/models/" ++ model_name ++ "/train/{uuid}".

(** [router.add_post(path, handler)] *)
Definition add_post (router : list Route) (p owner_ : string) (e : Endpoint)
  : list Route :=
  (router ++ [mkRoute POST p owner_ e])%list.

(** [router.add_get(path, handler)]: with the default [allow_head=True]
    aiohttp registers the handler for HEAD as well, before GET. *)
Definition add_get (router : list Route) (p owner_ : string) (e : Endpoint)
  : list Route :=
  (router ++ [mkRoute HEAD p owner_ e; mkRoute GET p owner_ e])%list.

(** [router.add_delete(path, handler)] *)
Definition add_delete (router : list Route) (p owner_ : string) (e : Endpoint)
  : list Route :=
  (router ++ [mkRoute DELETE p owner_ e])%list.

(** The body of the loop of [setup_routes]: the four registrations for one
    model, in the order of the source. *)
Definition add_model_routes (router : list Route) (model_name : string)
  : list Route :=
  let r1 := add_post router (train_path model_name) model_name hdlr_post in
  let r2 := add_get r1 (train_path model_name) model_name hdlr_index in
  let r3 := add_get r2 (train_uuid_path model_name) model_name hdlr_get in
  add_delete r3 (train_uuid_path model_name) model_name hdlr_delete.

(** [setup_routes(app)]: the loop over [model.V2_MODELS.items()], on the
    routes [router] the application already has. *)
Fixpoint setup_routes {V : Type} (V2_MODELS : Dict.t V) (router : list Route)
  : list Route :=
  match V2_MODELS with
  | [] => router
  | (model_name, _) :: rest => setup_routes rest (add_model_routes router model_name)
  end.

(** What the router tells routes apart by. *)
Definition route_key (r : Route) : Method * string := (method r, path r).

(* ------------------------------------------------------------------ *)
(** ** Dictionary lemmas *)

Section DictFacts.
Context {V : Type}.
Implicit Types (d : Dict.t V) (k : string) (v : V).

Lemma get_set_same d k v : Dict.get (Dict.set d k v) k = Some v.
Proof.
  induction d as [|[k' v'] d IH]; simpl.
  - now rewrite String.eqb_refl.
  - destruct (String.eqb k k') eqn:E; simpl; rewrite E; auto.
Qed.

Lemma get_set_other d k k' v :
  k' <> k -> Dict.get (Dict.set d k v) k' = Dict.get d k'.
Proof.
  intros Hne. induction d as [|[k0 v0] d IH]; simpl.
  - destruct (String.eqb k' k) eqn:E; auto.
    apply String.eqb_eq in E. contradiction.
  - destruct (String.eqb k k0) eqn:E; simpl.
    + apply String.eqb_eq in E. subst k0.
      destruct (String.eqb k' k) eqn:E'; auto.
      apply String.eqb_eq in E'. contradiction.
    + now rewrite IH.
Qed.

(** A key that is not there yet is appended. *)
Lemma set_fresh d k v : Dict.get d k = None -> Dict.set d k v = (d ++ [(k, v)])%list.
Proof.
  induction d as [|[k' v'] d IH]; simpl; intros H; auto.
  destruct (String.eqb k k') eqn:E; [discriminate|].
  now rewrite IH.
Qed.

Lemma mem_set_mono d k k' v :
  Dict.mem d k' = true -> Dict.mem (Dict.set d k v) k' = true.
Proof.
  unfold Dict.mem. intros H.
  destruct (String.eqb k' k) eqn:E.
  - apply String.eqb_eq in E. subst. now rewrite get_set_same.
  - apply String.eqb_neq in E. now rewrite get_set_other.
Qed.
End DictFacts.

(* ------------------------------------------------------------------ *)
(** ** Status derivation *)

Lemma build_status_cases s ret0 :
  Handler.build_status s ret0 =
  match s with
  | Terminated TCancelled => Ok (Dict.set ret0 "status" (JString "cancelled"))
  | Terminated TResult => Ok (Dict.set ret0 "status" (JString "done"))
  | Terminated (TException e) =>
      if exc_bool e
      then Ok (Dict.set (Dict.set ret0 "status" (JString "error"))
                        "message" (JString (exc_str e)))
      else Ok (Dict.set ret0 "status" (JString "done"))
  | Pending _ => Ok (Dict.set ret0 "status" (JString "running"))
  end.
Proof. task_cases s; reflexivity. Qed.

Lemma build_status_total s ret0 : exists r, Handler.build_status s ret0 = Ok r.
Proof. rewrite build_status_cases. task_cases s; simpl; eauto. Qed.

Lemma build_train_response_hit st uuid_ tr :
  Dict.get (_trainings st) uuid_ = Some tr ->
  Handler.build_train_response uuid_ st =
  (match Handler.build_status (tasks st (task tr)) (base_snapshot uuid_ tr) with
   | Ok r => Ok (Some r)
   | Raise e => Raise e
   end, st).
Proof.
  intros H. unfold Handler.build_train_response. unfold_M. rewrite H. simpl.
  unfold base_snapshot.
  destruct (Handler.build_status _ _); reflexivity.
Qed.

Lemma build_train_response_miss st uuid_ :
  Dict.get (_trainings st) uuid_ = None ->
  Handler.build_train_response uuid_ st = (Ok None, st).
Proof.
  intros H. unfold Handler.build_train_response. unfold_M. now rewrite H.
Qed.

Lemma build_train_response_snapshot st uuid_ tr :
  Dict.get (_trainings st) uuid_ = Some tr ->
  Handler.build_train_response uuid_ st =
  (Ok (Some (snapshot_of uuid_ tr (tasks st (task tr)))), st).
Proof.
  intros H. rewrite (build_train_response_hit _ _ _ H), build_status_cases.
  task_cases (tasks st (task tr)); reflexivity.
Qed.

Lemma build_train_response_total st uuid_ :
  exists r, Handler.build_train_response uuid_ st = (Ok r, st).
Proof.
  destruct (Dict.get (_trainings st) uuid_) as [tr|] eqn:H.
  - rewrite (build_train_response_snapshot _ _ _ H). eauto.
  - rewrite (build_train_response_miss _ _ H). eauto.
Qed.

Lemma snapshot_status uuid_ tr s :
  Dict.get (snapshot_of uuid_ tr s) "status" = Some (JString (derived_status s)).
Proof. task_cases s; reflexivity. Qed.

Lemma get_hit st uuid_ tr :
  Dict.get (_trainings st) uuid_ = Some tr ->
  Handler.get uuid_ st =
  (Ok (json_response (JObject (snapshot_of uuid_ tr (tasks st (task tr))))), st).
Proof.
  intros H. unfold Handler.get. unfold_M.
  rewrite (build_train_response_snapshot _ _ _ H).
  task_cases (tasks st (task tr)); reflexivity.
Qed.

Lemma derived_status_cases s :
  derived_status s =
  match s with
  | Terminated TCancelled => "cancelled"
  | Terminated (TException e) => if exc_bool e then "error" else "done"
  | Terminated TResult => "done"
  | Pending _ => "running"
  end.
Proof. task_cases s; reflexivity. Qed.

(** The handler follows the order cancelled, then done, then running, and
    within done it tells error from done by the boolean test of the
    recorded exception.  The four statuses are distinct, one of them always
    applies, and a cancelled task gets cancelled, never done or error. *)
Lemma status_follows_order_on_tested_flags :
  forall st uuid_ tr,
    Dict.get (_trainings st) uuid_ = Some tr ->
    let s := tasks st (task tr) in
    exists r,
      Handler.build_train_response uuid_ st = (Ok (Some r), st) /\
      Dict.get r "status" =
        Some (JString (status_by_order (cancelled s) (done s) (failure_seen s))) /\
      NoDup statuses /\
      In (derived_status s) statuses /\
      (derived_status s = "cancelled" <-> s = Terminated TCancelled) /\
      (derived_status s = "error" <->
       exists e, s = Terminated (TException e) /\ exc_bool e = true) /\
      (derived_status s = "running" <-> exists b, s = Pending b) /\
      (cancelled s = true ->
         done s = true /\
         Dict.get r "status" = Some (JString "cancelled")).
Proof.
  intros st uuid_ tr H s.
  exists (snapshot_of uuid_ tr s).
  split; [exact (build_train_response_snapshot _ _ _ H)|].
  split; [apply snapshot_status|].
  split.
  { unfold statuses. repeat constructor; simpl; intuition discriminate. }
  rewrite snapshot_status, derived_status_cases.
  task_cases s; simpl;
    repeat match goal with
           | |- _ /\ _ => split
           | |- _ <-> _ => split
           end;
    try solve [ tauto | discriminate | reflexivity | eauto
              | intros; discriminate
              | intros [? [? ?]]; discriminate
              | intros [? ?]; discriminate
              | intros _; repeat split; discriminate
              | intros [? [He ?]]; inversion He; subst; discriminate
              | eexists; split; reflexivity ].
Qed.

(** Where the specification and the handler agree: on every task whose
    recorded exception, if any, is true in a boolean test. *)
Lemma derived_status_is_specified_status s :
  (forall e, recorded_failure s = Some e -> exc_bool e = true) ->
  derived_status s = specified_status s.
Proof.
  intros H. unfold derived_status, specified_status, failure_seen, has_failure.
  destruct (recorded_failure s) as [e|]; [|reflexivity].
  simpl. now rewrite (H e eq_refl).
Qed.

(** C1, failing input: one job whose work raised an exception object that
    is false in a boolean test.  A failure is recorded on the task, so the
    rule of the specification gives error; the handler answers done, with
    no message, from [get] and from [index]. *)
Theorem falsy_exception_is_reported_done :
  let s := tasks Examples.quietly_failed_job 0 in
  let snap :=
    JObject [("date", JString "2019-04-01 10:00:00.000000");
             ("uuid", JString "B1");
             ("status", JString "done")] in
  Dict.get (_trainings Examples.quietly_failed_job) "B1" =
    Some (mkTraining "2019-04-01 10:00:00.000000" 0) /\
  s = Terminated (TException Examples.quiet_failure) /\
  cancelled s = false /\ done s = true /\
  exception s = Ok (Some Examples.quiet_failure) /\
  has_failure s = true /\
  specified_status s = "error" /\
  fst (Handler.get "B1" Examples.quietly_failed_job) = Ok (json_response snap) /\
  fst (Handler.index Examples.quietly_failed_job) =
    Ok (json_response (JArray [snap])).
Proof. repeat split. Qed.

(* ------------------------------------------------------------------ *)
(** ** Frame reasoning for handler computations *)

Section Frame.
Variable P : State -> State -> Prop.
Hypothesis P_refl : forall st, P st st.
Hypothesis P_trans : forall a b c, P a b -> P b c -> P a c.

Lemma respects_ret A (a : A) : respects P (ret a).
Proof. intros st. apply P_refl. Qed.

Lemma respects_bind A B (m : M A) (k : A -> M B) :
  respects P m -> (forall a, respects P (k a)) -> respects P (bind m k).
Proof.
  intros Hm Hk st. unfold bind. specialize (Hm st).
  destruct (m st) as [[a|e] st']; simpl in *; auto.
  eapply P_trans; [exact Hm|apply Hk].
Qed.

Lemma respects_try (m : M unit) :
  respects P m -> respects P (try_except_TimeoutError_pass m).
Proof.
  intros Hm st. unfold try_except_TimeoutError_pass. specialize (Hm st).
  destruct (m st) as [[a|e] st']; simpl in *; auto.
  destruct (is_TimeoutError e); auto.
Qed.

Lemma respects_build_train_response uuid_ :
  respects P (Handler.build_train_response uuid_).
Proof.
  intros st. destruct (build_train_response_total st uuid_) as [r ->].
  apply P_refl.
Qed.
End Frame.

Lemma only_task_refl t st : only_task t st st.
Proof. split; auto. Qed.

Lemma only_task_trans t a b c :
  only_task t a b -> only_task t b c -> only_task t a c.
Proof.
  intros [H1 H2] [H3 H4]. split; [congruence|].
  intros t' Hne. rewrite H4, H2; auto.
Qed.

Lemma only_task_set_task t s st : only_task t st (set_task t s st).
Proof.
  split; [reflexivity|]. intros t' Hne. simpl.
  destruct (Nat.eqb t' t) eqn:E; auto.
  apply Nat.eqb_eq in E. contradiction.
Qed.

Lemma cancel_only_task t : respects (only_task t) (cancel t).
Proof. intros st. apply only_task_set_task. Qed.

Lemma wait_for_only_task t timeout env :
  respects (only_task t) (wait_for t timeout env).
Proof.
  intros st. unfold wait_for.
  destruct (tasks st t); [|apply only_task_refl].
  destruct (Nat.ltb _ _); apply only_task_set_task.
Qed.

Lemma LOG_info_only_task t msg : respects (only_task t) (LOG_info msg).
Proof. intros st. split; auto. Qed.

Lemma delete_hit_only_task uuid_ env st tr :
  Dict.get (_trainings st) uuid_ = Some tr ->
  only_task (task tr) st (snd (Handler.delete uuid_ env st)).
Proof.
  intros H. unfold Handler.delete.
  unfold bind at 1. unfold gets at 1. rewrite H. simpl.
  pose proof (only_task_refl (task tr)) as R.
  pose proof (only_task_trans (task tr)) as T.
  refine ((_ : respects (only_task (task tr))
            (cancel (task tr) ;;;
             try_except_TimeoutError_pass
               (wait_for (task tr) Handler.grace_period env) ;;;
             LOG_info ("Training " ++ uuid_ ++ " has been cancelled") ;;;
             r <- Handler.build_train_response uuid_ ;;
             ret (json_response (to_json r)))) st).
  clear H st.
  apply (respects_bind _ T); [apply cancel_only_task|intros _].
  apply (respects_bind _ T);
    [apply respects_try, wait_for_only_task|intros _].
  apply (respects_bind _ T); [apply LOG_info_only_task|intros _].
  apply (respects_bind _ T);
    [apply (respects_build_train_response _ R)|intros r].
  apply (respects_ret _ R).
Qed.

Lemma delete_miss uuid_ env st :
  Dict.get (_trainings st) uuid_ = None ->
  Handler.delete uuid_ env st = (Raise (mkExc HTTPNotFound "Not Found"), st).
Proof.
  intros H. unfold Handler.delete. unfold_M. now rewrite H.
Qed.

Lemma get_miss uuid_ st :
  Dict.get (_trainings st) uuid_ = None ->
  Handler.get uuid_ st = (Raise (mkExc HTTPNotFound "Not Found"), st).
Proof.
  intros H. unfold Handler.get. unfold_M.
  now rewrite (build_train_response_miss _ _ H).
Qed.

Lemma get_state uuid_ st : snd (Handler.get uuid_ st) = st.
Proof.
  destruct (Dict.get (_trainings st) uuid_) as [tr|] eqn:H.
  - now rewrite (get_hit _ _ _ H).
  - now rewrite (get_miss _ _ H).
Qed.

(** C4: for an identifier that is not in the registry, [get] (status) and
    [delete] (cancel) both raise the not-found signal, return no snapshot
    and leave the state as it was. *)
Theorem get_delete_unknown_id_not_found :
  forall st uuid_ env,
    Dict.get (_trainings st) uuid_ = None ->
    Handler.get uuid_ st = (Raise (mkExc HTTPNotFound "Not Found"), st) /\
    Handler.delete uuid_ env st = (Raise (mkExc HTTPNotFound "Not Found"), st).
Proof.
  intros st uuid_ env H. split.
  - now apply get_miss.
  - now apply delete_miss.
Qed.

(* ------------------------------------------------------------------ *)
(** ** Listing and submission *)

Lemma build_train_response_eq st uuid_ :
  Handler.build_train_response uuid_ st = (Ok (snapshot st uuid_), st).
Proof.
  unfold snapshot.
  destruct (Dict.get (_trainings st) uuid_) as [tr|] eqn:H.
  - now apply build_train_response_snapshot.
  - now apply build_train_response_miss.
Qed.

Lemma index_loop_eq st items acc :
  Handler.index_loop items acc st =
  (Ok (acc ++ map (fun kv => to_json (snapshot st (fst kv))) items)%list, st).
Proof.
  revert acc. induction items as [|[u tr] items IH]; intros acc; simpl.
  - unfold ret. now rewrite app_nil_r.
  - unfold bind. rewrite build_train_response_eq, IH.
    now rewrite <- app_assoc.
Qed.

Lemma index_eq st :
  Handler.index st =
  (Ok (json_response
         (JArray (map (fun kv => to_json (snapshot st (fst kv))) (_trainings st)))),
   st).
Proof.
  unfold Handler.index, bind, gets, Dict.items. now rewrite index_loop_eq.
Qed.

Lemma post_eq uuid_ now train_task st :
  let st' := set_trainings
               (Dict.set (_trainings st) uuid_ (mkTraining now train_task)) st in
  Handler.post uuid_ now train_task st =
  (Ok (json_response (to_json (snapshot st' uuid_))), st').
Proof.
  intros st'. unfold Handler.post, bind, modify.
  fold st'. now rewrite build_train_response_eq.
Qed.

Lemma get_NoDup_In {V} (d : Dict.t V) k v :
  NoDup (Dict.keys d) -> In (k, v) d -> Dict.get d k = Some v.
Proof.
  induction d as [|[k' v'] d IH]; simpl; intros Hnd Hin; [tauto|].
  inversion Hnd as [|? ? Hnotin Hnd']; subst.
  destruct Hin as [Heq|Hin].
  - inversion Heq; subst. now rewrite String.eqb_refl.
  - destruct (String.eqb k k') eqn:E.
    + apply String.eqb_eq in E. subst k'.
      exfalso. apply Hnotin. change k with (fst (k, v)). now apply in_map.
    + now apply IH.
Qed.

Lemma submit_all_eq subs : forall st,
  NoDup (map sub_uuid subs) ->
  (forall s, In s subs -> Dict.get (_trainings st) (sub_uuid s) = None) ->
  submit_all subs st =
  set_trainings (_trainings st ++ map record_of subs)%list st.
Proof.
  induction subs as [|s subs IH]; intros st Hnd Hfresh; simpl.
  - rewrite app_nil_r. now destruct st.
  - inversion Hnd as [|? ? Hnotin Hnd']; subst.
    rewrite post_eq. simpl.
    rewrite IH; auto.
    + unfold set_trainings. simpl.
      rewrite set_fresh by (apply Hfresh; now left).
      now rewrite <- app_assoc.
    + intros s' Hin. simpl.
      rewrite get_set_other.
      * apply Hfresh. now right.
      * intros Heq. apply Hnotin. rewrite <- Heq. now apply in_map.
Qed.

Lemma keys_record_of subs : Dict.keys (map record_of subs) = map sub_uuid subs.
Proof. unfold Dict.keys. rewrite map_map. reflexivity. Qed.

Lemma Forall2_map_r {A B} (R : A -> B -> Prop) (f : A -> B) l :
  (forall a, In a l -> R a (f a)) -> Forall2 R l (map f l).
Proof.
  induction l as [|a l IH]; simpl; intros H; constructor; auto.
Qed.

(** C5: after N submissions under pairwise distinct identifiers, [index]
    returns exactly N snapshots, in submission order, the i-th being what
    [get] returns for the i-th identifier on the same state; [index] leaves
    the state alone, so calling it again gives the same sequence. *)
Theorem index_lists_every_submission_in_order :
  forall tasks0 subs st,
    NoDup (map sub_uuid subs) ->
    _trainings st = _trainings (submit_all subs (Handler.init tasks0)) ->
    exists l,
      Handler.index st = (Ok (json_response (JArray l)), st) /\
      length l = length subs /\
      length l = length (_trainings st) /\
      Forall2 (fun sub j =>
                 Handler.get (sub_uuid sub) st = (Ok (json_response j), st))
              subs l /\
      Handler.index (snd (Handler.index st)) =
        (Ok (json_response (JArray l)), st).
Proof.
  intros tasks0 subs st Hnd Hst.
  rewrite submit_all_eq in Hst by (auto; reflexivity).
  simpl in Hst.
  exists (map (fun kv => to_json (snapshot st (fst kv))) (_trainings st)).
  rewrite index_eq. simpl. rewrite index_eq.
  split; [reflexivity|].
  split; [rewrite Hst; now rewrite !length_map|].
  split; [now rewrite length_map|].
  split; [|reflexivity].
  rewrite Hst at 1. rewrite map_map. apply Forall2_map_r.
  intros s Hin. simpl.
  assert (Hget : Dict.get (_trainings st) (sub_uuid s) =
                 Some (mkTraining (sub_now s) (sub_task s))).
  { rewrite Hst. apply get_NoDup_In.
    - now rewrite keys_record_of.
    - change (In (record_of s) (map record_of subs)). now apply in_map. }
  rewrite (get_hit _ _ _ Hget). unfold snapshot. now rewrite Hget.
Qed.

(* ------------------------------------------------------------------ *)
(** ** Cancellation *)

Lemma set_task_same t s st : tasks (set_task t s st) t = s.
Proof. simpl. now rewrite Nat.eqb_refl. Qed.

Lemma delete_hit_eq uuid_ env st tr :
  Dict.get (_trainings st) uuid_ = Some tr ->
  Handler.delete uuid_ env st =
  (try_except_TimeoutError_pass
     (wait_for (task tr) Handler.grace_period env) ;;;
   LOG_info (note uuid_) ;;;
   r <- Handler.build_train_response uuid_ ;;
   ret (json_response (to_json r)))
    (set_task (task tr) (cancel_state (tasks st (task tr))) st).
Proof.
  intros H. unfold Handler.delete.
  unfold bind at 1. unfold gets at 1. rewrite H. reflexivity.
Qed.

Lemma await_eq t env st s :
  tasks st t = cancel_state s ->
  exists st',
    try_except_TimeoutError_pass (wait_for t Handler.grace_period env) st =
      (match escapes s env with None => Ok tt | Some e => Raise e end, st') /\
    tasks st' t = after_await s env /\
    _trainings st' = _trainings st /\
    log st' = log st.
Proof.
  intros H.
  unfold try_except_TimeoutError_pass, wait_for, escapes, after_await, leaves.
  rewrite H.
  destruct s as [b|o]; simpl cancel_state; cbv iota.
  - destruct (Nat.ltb (delay env) Handler.grace_period).
    + eexists. split; [|split; [apply set_task_same|split; reflexivity]].
      destruct (result (outcome env)) as [[]|e]; [reflexivity|].
      now destruct (is_TimeoutError e).
    + eexists. split; [|split; [apply set_task_same|split; reflexivity]].
      destruct (late_result (policy env) (outcome env)) as [[]|e];
        [reflexivity|].
      now destruct (is_TimeoutError e).
  - exists st. split; [|split; [|split; reflexivity]].
    + destruct (result o) as [[]|e]; [reflexivity|].
      now destruct (is_TimeoutError e).
    + rewrite H. reflexivity.
Qed.

Lemma delete_hit_run uuid_ env st tr :
  Dict.get (_trainings st) uuid_ = Some tr ->
  let s := tasks st (task tr) in
  exists st',
    Handler.delete uuid_ env st =
      (match escapes s env with
       | Some e => Raise e
       | None => Ok (json_response
                       (JObject (snapshot_of uuid_ tr (after_await s env))))
       end, st') /\
    tasks st' (task tr) = after_await s env /\
    _trainings st' = _trainings st /\
    log st' = match escapes s env with
              | Some _ => log st
              | None => (log st ++ [note uuid_])%list
              end.
Proof.
  intros H s.
  rewrite (delete_hit_eq _ _ _ _ H). fold s.
  destruct (await_eq (task tr) env
              (set_task (task tr) (cancel_state s) st) s
              (set_task_same _ _ _)) as (st2 & Hw & Ht & Hd & Hl).
  simpl in Hd, Hl.
  unfold bind. rewrite Hw.
  destruct (escapes s env) as [e|].
  - exists st2. auto.
  - unfold LOG_info, modify, ret.
    rewrite build_train_response_eq. unfold snapshot. simpl.
    rewrite Hd, H, Ht, Hl. eexists. split; [reflexivity|]. simpl. auto.
Qed.

Lemma delete_hit uuid_ env st tr :
  Dict.get (_trainings st) uuid_ = Some tr ->
  let s := tasks st (task tr) in
  let st' := snd (Handler.delete uuid_ env st) in
  tasks st' (task tr) = after_await s env /\
  match escapes s env with
  | Some e =>
      fst (Handler.delete uuid_ env st) = Raise e /\ log st' = log st
  | None =>
      fst (Handler.delete uuid_ env st) =
        Ok (json_response
              (JObject (snapshot_of uuid_ tr (after_await s env)))) /\
      log st' = (log st ++ [note uuid_])%list
  end.
Proof.
  intros H s st'. subst st'.
  destruct (delete_hit_run uuid_ env st tr H) as (st2 & Hr & Ht & Hd & Hl).
  fold s in Hr, Ht, Hl. rewrite Hr. simpl.
  destruct (escapes s env); auto.
Qed.

(* ------------------------------------------------------------------ *)
(** ** Snapshot contents *)

(** C6: the snapshot of a job in the registry carries the job's identifier
    under [uuid], its submission timestamp under [date] and the status
    derived from its task under [status]; it has a [message] entry exactly
    when that status is [error], which is exactly when the task finished
    with an exception that the handler's test takes for one, and the
    message is then the string form of that exception. *)
Theorem snapshot_has_id_date_and_message_iff_error :
  forall st uuid_ tr,
    Dict.get (_trainings st) uuid_ = Some tr ->
    let s := tasks st (task tr) in
    exists r,
      Handler.build_train_response uuid_ st = (Ok (Some r), st) /\
      Handler.get uuid_ st = (Ok (json_response (JObject r)), st) /\
      Dict.get r "uuid" = Some (JString uuid_) /\
      Dict.get r "date" = Some (JString (date tr)) /\
      Dict.get r "status" =
        Some (JString (status_by_order (cancelled s) (done s) (failure_seen s))) /\
      (Dict.mem r "message" = true <->
       Dict.get r "status" = Some (JString "error")) /\
      (Dict.get r "status" = Some (JString "error") <->
       exists e, s = Terminated (TException e) /\ exc_bool e = true) /\
      (forall e, s = Terminated (TException e) -> exc_bool e = true ->
                 Dict.get r "message" = Some (JString (exc_str e))) /\
      (Dict.mem r "message" = false -> Dict.get r "message" = None).
Proof.
  intros st uuid_ tr H s.
  exists (snapshot_of uuid_ tr s).
  split; [now apply build_train_response_snapshot|].
  split; [now apply get_hit|].
  split; [task_cases s; reflexivity|].
  split; [task_cases s; reflexivity|].
  split; [apply snapshot_status|].
  task_cases s; simpl;
    repeat match goal with
           | |- _ /\ _ => split
           | |- _ <-> _ => split
           end;
    try solve [ reflexivity | discriminate | intros; discriminate
              | intros [? [? ?]]; discriminate
              | intros [? [He ?]]; inversion He; subst; discriminate
              | eexists; split; reflexivity
              | intros ? He ?; inversion He; subst; reflexivity
              | intros ? He ?; inversion He; subst; discriminate ].
Qed.

Lemma snapshot_has_id_date_and_message_iff_error_witness :
  exists r,
    Handler.build_train_response "B1" Examples.st4 = (Ok (Some r), Examples.st4) /\
    Handler.get "B1" Examples.st4 = (Ok (json_response (JObject r)), Examples.st4) /\
    Dict.get r "uuid" = Some (JString "B1") /\
    Dict.get r "date" = Some (JString "2019-04-01 10:00:02.000000") /\
    Dict.get r "status" = Some (JString "error") /\
    Dict.get r "message" = Some (JString "bad data").
Proof.
  destruct (snapshot_has_id_date_and_message_iff_error Examples.st4 "B1"
              (mkTraining "2019-04-01 10:00:02.000000" 2) eq_refl)
    as (r & Hb & Hg & Hu & Hd & Hs & _ & _ & Hm & _).
  exists r. split; [exact Hb|]. split; [exact Hg|]. split; [exact Hu|].
  split; [exact Hd|]. split; [exact Hs|].
  apply (Hm Examples.bad_data); reflexivity.
Defined.

Lemma get_delete_unknown_id_not_found_witness :
  Handler.get "nonexistent" Examples.st4 =
    (Raise (mkExc HTTPNotFound "Not Found"), Examples.st4) /\
  Handler.delete "nonexistent" Examples.honours_quickly Examples.st4 =
    (Raise (mkExc HTTPNotFound "Not Found"), Examples.st4).
Proof.
  apply (get_delete_unknown_id_not_found Examples.st4 "nonexistent"
           Examples.honours_quickly).
  reflexivity.
Defined.

Lemma NoDup_subs4 : NoDup (map sub_uuid Examples.subs4).
Proof.
  simpl. repeat constructor; simpl; intuition discriminate.
Defined.

Lemma index_lists_every_submission_in_order_witness :
  exists l,
    Handler.index Examples.st4 = (Ok (json_response (JArray l)), Examples.st4) /\
    length l = 4 /\
    length l = length (_trainings Examples.st4) /\
    Forall2 (fun sub j =>
               Handler.get (sub_uuid sub) Examples.st4 =
                 (Ok (json_response j), Examples.st4))
            Examples.subs4 l /\
    Handler.index (snd (Handler.index Examples.st4)) =
      (Ok (json_response (JArray l)), Examples.st4).
Proof.
  apply (index_lists_every_submission_in_order
           Examples.tasks4 Examples.subs4 Examples.st4).
  - exact NoDup_subs4.
  - reflexivity.
Defined.

(* ------------------------------------------------------------------ *)
(** ** Totality of the status derivation *)

(** C10: [exception()] is legal exactly on a task that is not cancelled and
    is done; the status chain gives the same answer whatever [exception()]
    would do elsewhere, so it calls it only there; hence the chain never
    raises, and a snapshot is built for every job in the registry, with one
    of the four statuses, in every state of its task. *)
Theorem status_derivation_total :
  (forall s,
     (exists r, exception s = Ok r) <-> cancelled s = false /\ done s = true) /\
  (forall exception' s ret0,
     (forall s', cancelled s' = false -> done s' = true ->
                 exception' s' = exception s') ->
     Handler.build_status_with exception' s ret0 = Handler.build_status s ret0) /\
  (forall s ret0, exists r, Handler.build_status s ret0 = Ok r) /\
  (forall st uuid_ tr,
     Dict.get (_trainings st) uuid_ = Some tr ->
     exists r,
       Handler.build_train_response uuid_ st = (Ok (Some r), st) /\
       Dict.get r "status" = Some (JString (derived_status (tasks st (task tr)))) /\
       In (derived_status (tasks st (task tr))) statuses).
Proof.
  split; [|split; [|split]].
  - intros s. destruct s as [b|[| |e]]; simpl; split;
      try (intros [r Hr]; discriminate); try (intros [? ?]; discriminate);
      eauto.
  - intros exception' s ret0 Hagree.
    unfold Handler.build_status, Handler.build_status_with.
    destruct (cancelled s) eqn:Hc; [reflexivity|].
    destruct (done s) eqn:Hd; [|reflexivity].
    now rewrite Hagree.
  - apply build_status_total.
  - intros st uuid_ tr H.
    exists (snapshot_of uuid_ tr (tasks st (task tr))).
    split; [now apply build_train_response_snapshot|].
    split; [apply snapshot_status|].
    rewrite derived_status_cases.
    task_cases (tasks st (task tr)); simpl; tauto.
Qed.

Lemma status_derivation_total_witness :
  (exists r, exception (Terminated (TException Examples.bad_data)) = Ok r) /\
  Handler.build_status_with Examples.lenient_exception (Pending false) [] =
    Handler.build_status (Pending false) [] /\
  exists r,
    Handler.build_train_response "A1" Examples.st4 = (Ok (Some r), Examples.st4) /\
    Dict.get r "status" = Some (JString "running").
Proof.
  destruct status_derivation_total as (Hlegal & Honly & _ & Hpresent).
  split; [|split].
  - apply (proj2 (Hlegal (Terminated (TException Examples.bad_data)))).
    split; reflexivity.
  - apply Honly.
    intros [b|[| |e]] Hc Hd; simpl in *; try discriminate; reflexivity.
  - destruct (Hpresent Examples.st4 "A1"
                (mkTraining "2019-04-01 10:00:00.000000" 0) eq_refl)
      as (r & Hr & Hs & _).
    exists r. split; [exact Hr|exact Hs].
Defined.

(* ------------------------------------------------------------------ *)
(** ** What the handlers leave untouched *)

Lemma index_state st : snd (Handler.index st) = st.
Proof. now rewrite index_eq. Qed.

Lemma delete_trainings uuid_ env st :
  _trainings (snd (Handler.delete uuid_ env st)) = _trainings st.
Proof.
  destruct (Dict.get (_trainings st) uuid_) as [tr|] eqn:H.
  - apply (delete_hit_only_task uuid_ env st tr H).
  - now rewrite (delete_miss _ _ _ H).
Qed.

(** C9: no handler removes a record or changes the fields of one.
    [delete] leaves [_trainings] as it was (the key, the date and the task
    handle of the cancelled job and every other record) and changes no task
    but the one of that job; on an unknown identifier it changes nothing.
    [get] and [index] leave the whole state as it was.  [post] keeps every
    identifier that was present and every record under another
    identifier. *)
Theorem handlers_never_remove_or_rewrite_records :
  (forall uuid_ env st,
     let st' := snd (Handler.delete uuid_ env st) in
     _trainings st' = _trainings st /\
     (forall tr, Dict.get (_trainings st) uuid_ = Some tr ->
        Dict.get (_trainings st') uuid_ = Some tr /\
        forall t', t' <> task tr -> tasks st' t' = tasks st t') /\
     (Dict.get (_trainings st) uuid_ = None -> st' = st)) /\
  (forall uuid_ st, snd (Handler.get uuid_ st) = st) /\
  (forall st, snd (Handler.index st) = st) /\
  (forall uuid_ now train_task st,
     let st' := snd (Handler.post uuid_ now train_task st) in
     (forall k, Dict.mem (_trainings st) k = true ->
                Dict.mem (_trainings st') k = true) /\
     (forall k, k <> uuid_ ->
                Dict.get (_trainings st') k = Dict.get (_trainings st) k) /\
     tasks st' = tasks st).
Proof.
  split; [|split; [|split]].
  - intros uuid_ env st st'. subst st'.
    split; [apply delete_trainings|]. split.
    + intros tr H. split.
      * now rewrite delete_trainings.
      * apply (delete_hit_only_task uuid_ env st tr H).
    + intros H. now rewrite (delete_miss _ _ _ H).
  - intros. apply get_state.
  - intros. apply index_state.
  - intros uuid_ now train_task st st'. subst st'.
    rewrite post_eq. simpl.
    split; [|split; [|reflexivity]].
    + intros k. apply mem_set_mono.
    + intros k Hk. now apply get_set_other.
Qed.

Lemma handlers_never_remove_or_rewrite_records_witness :
  let st' := snd (Handler.delete "A1" Examples.too_slow Examples.st4) in
  _trainings st' = _trainings Examples.st4 /\
  Dict.get (_trainings st') "A1" =
    Some (mkTraining "2019-04-01 10:00:00.000000" 0) /\
  tasks st' 2 = tasks Examples.st4 2 /\
  snd (Handler.delete "nonexistent" Examples.too_slow Examples.st4) = Examples.st4 /\
  Dict.mem
    (_trainings (snd (Handler.post "D1" "2019-04-01 11:00:00.000000" 4 Examples.st4)))
    "B1" = true /\
  Dict.get
    (_trainings (snd (Handler.post "D1" "2019-04-01 11:00:00.000000" 4 Examples.st4)))
    "B1" = Dict.get (_trainings Examples.st4) "B1".
Proof.
  destruct handlers_never_remove_or_rewrite_records as (Hdel & _ & _ & Hpost).
  destruct (Hdel "A1" Examples.too_slow Examples.st4) as (Hsame & Hhit & _).
  destruct (Hhit (mkTraining "2019-04-01 10:00:00.000000" 0) eq_refl)
    as (Hrec & Hother).
  destruct (Hdel "nonexistent" Examples.too_slow Examples.st4) as (_ & _ & Hmiss).
  destruct (Hpost "D1" "2019-04-01 11:00:00.000000" 4 Examples.st4)
    as (Hkeep & Hget & _).
  intros st'. split; [exact Hsame|]. split; [exact Hrec|].
  split; [apply Hother; simpl; lia|].
  split; [apply Hmiss; reflexivity|].
  split; [apply Hkeep; reflexivity|].
  apply Hget. discriminate.
Defined.

(* ------------------------------------------------------------------ *)
(** ** Submission *)




(* ------------------------------------------------------------------ *)
(** ** Terminal jobs *)




(* ------------------------------------------------------------------ *)
(** ** Cancelling through [delete] *)

(** [delete] answers with the snapshot exactly when nothing but a timeout
    leaves the [try] block: the task had finished with a result, or
    finishes with one in time, or [wait_for] ends with [TimeoutError] or
    with a late result. *)
Lemma delete_returns_snapshot uuid_ env st tr :
  Dict.get (_trainings st) uuid_ = Some tr ->
  escapes (tasks st (task tr)) env = None ->
  fst (Handler.delete uuid_ env st) =
    Ok (json_response
          (JObject (snapshot_of uuid_ tr (after_await (tasks st (task tr)) env)))) /\
  log (snd (Handler.delete uuid_ env st)) = (log st ++ [note uuid_])%list.
Proof.
  intros H Hesc. destruct (delete_hit uuid_ env st tr H) as [_ Hres].
  now rewrite Hesc in Hres.
Qed.

(** After the grace period has run out on a task that is not joined, the
    snapshot still says [running]. *)
Lemma delete_timeout_still_running uuid_ env st tr b :
  Dict.get (_trainings st) uuid_ = Some tr ->
  tasks st (task tr) = Pending b ->
  Handler.grace_period <= delay env ->
  joined env = false ->
  fst (Handler.delete uuid_ env st) =
    Ok (json_response
          (JObject [("date", JString (date tr)); ("uuid", JString uuid_);
                    ("status", JString "running")])).
Proof.
  intros H Hs Hle Hj.
  apply Nat.ltb_ge in Hle.
  assert (Hp : policy env = GiveUp)
    by (unfold joined in Hj; destruct (policy env); [reflexivity|discriminate..]).
  destruct (delete_returns_snapshot uuid_ env st tr H) as [Hr _].
  - rewrite Hs. unfold escapes. now rewrite Hle, Hp.
  - rewrite Hr, Hs. unfold after_await. now rewrite Hle, Hj.
Qed.

(** C2, failing input: one running job whose work honours the cancellation
    after one time unit.  [delete] ends with [CancelledError]: no note is
    logged and no snapshot is returned, although the task is cancelled by
    then and [get] reports it so. *)
Theorem delete_raises_when_cancellation_is_honoured :
  let st' := snd (Handler.delete "C1" Examples.honours_quickly Examples.running_job) in
  Dict.get (_trainings Examples.running_job) "C1" =
    Some (mkTraining "2019-04-01 10:00:00.000000" 0) /\
  tasks Examples.running_job 0 = Pending false /\
  fst (Handler.delete "C1" Examples.honours_quickly Examples.running_job) =
    Raise (mkExc CancelledError "") /\
  log st' = [] /\
  tasks st' 0 = Terminated TCancelled /\
  fst (Handler.get "C1" st') =
    Ok (json_response
          (JObject [("date", JString "2019-04-01 10:00:00.000000");
                    ("uuid", JString "C1");
                    ("status", JString "cancelled")])).
Proof. repeat split. Qed.

(** C3, failing input: one job whose work raised [ValueError("bad data")].
    [get] and [index] report it as [error] with the message, while [delete]
    ends with that very exception. *)
Theorem delete_reraises_execution_failure :
  let snap :=
    JObject [("date", JString "2019-04-01 10:00:00.000000");
             ("uuid", JString "B1");
             ("status", JString "error");
             ("message", JString "bad data")] in
  tasks Examples.failed_job 0 = Terminated (TException Examples.bad_data) /\
  fst (Handler.get "B1" Examples.failed_job) = Ok (json_response snap) /\
  fst (Handler.index Examples.failed_job) = Ok (json_response (JArray [snap])) /\
  fst (Handler.delete "B1" Examples.honours_quickly Examples.failed_job) =
    Raise Examples.bad_data.
Proof. repeat split. Qed.

(* ------------------------------------------------------------------ *)
(** ** Invariants along any sequence of requests *)

Lemma keys_set_cases {V} (d : Dict.t V) k v :
  Dict.keys (Dict.set d k v) =
  if Dict.mem d k then Dict.keys d else (Dict.keys d ++ [k])%list.
Proof.
  unfold Dict.mem.
  induction d as [|[k' v'] d IH]; simpl; auto.
  destruct (String.eqb k k') eqn:E; simpl; auto.
  rewrite IH. now destruct (Dict.get d k).
Qed.

Lemma serve_trainings r st :
  _trainings (serve r st) =
  match r with
  | ReqPost uuid_ now train_task =>
      Dict.set (_trainings st) uuid_ (mkTraining now train_task)
  | _ => _trainings st
  end.
Proof.
  destruct r as [u n t|u| |u env|f]; simpl.
  - now rewrite post_eq.
  - now rewrite get_state.
  - now rewrite index_state.
  - apply delete_trainings.
  - reflexivity.
Qed.

(** X2: a record stays in the registry, with the same date and the same
    task, through every sequence of requests that does not submit under
    its identifier again. *)
Theorem record_persists_until_resubmitted :
  forall rs st uuid_ tr,
    Dict.get (_trainings st) uuid_ = Some tr ->
    forallb (fun r => negb (posts_under uuid_ r)) rs = true ->
    Dict.get (_trainings (serve_all rs st)) uuid_ = Some tr.
Proof.
  induction rs as [|r rs IH]; intros st uuid_ tr H Hno; simpl; [exact H|].
  simpl in Hno. apply andb_prop in Hno. destruct Hno as [Hr Hrs].
  apply IH; [|exact Hrs].
  rewrite serve_trainings.
  destruct r as [u n t|u| |u env|f]; try exact H.
  simpl in Hr. apply negb_true_iff in Hr. apply String.eqb_neq in Hr.
  rewrite get_set_other; auto.
Qed.

Lemma record_persists_until_resubmitted_witness :
  Dict.get
    (_trainings
       (serve_all [ReqDelete "B1" Examples.honours_quickly;
                   ReqPost "D1" "2019-04-01 11:00:00.000000" 4;
                   ReqIndex;
                   ReqDelete "A1" Examples.too_slow;
                   ReqGet "B1"]
                  Examples.st4))
    "B1" = Some (mkTraining "2019-04-01 10:00:02.000000" 2).
Proof.
  apply record_persists_until_resubmitted; reflexivity.
Defined.

Lemma mem_of_get {V} (d : Dict.t V) k v :
  Dict.get d k = Some v -> Dict.mem d k = true.
Proof. unfold Dict.mem. now intros ->. Qed.

(** X3: every line the handler has logged is the cancellation note of an
    identifier that is in the registry. *)
Theorem log_holds_only_notes_of_known_jobs :
  forall rs tasks0 msg,
    let st := serve_all rs (Handler.init tasks0) in
    In msg (log st) ->
    exists uuid_,
      msg = "Training " ++ uuid_ ++ " has been cancelled" /\
      Dict.mem (_trainings st) uuid_ = true.
Proof.
  intros rs tasks0.
  assert (Hinit : forall msg, In msg (log (Handler.init tasks0)) ->
            exists uuid_, msg = note uuid_ /\
              Dict.mem (_trainings (Handler.init tasks0)) uuid_ = true)
    by (simpl; tauto).
  revert Hinit. generalize (Handler.init tasks0).
  induction rs as [|r rs IH]; intros st Hinv; simpl; [exact Hinv|].
  apply IH. clear IH. intros msg Hin.
  destruct r as [u n t|u| |u env|f]; simpl in *.
  - rewrite post_eq in *. simpl in *.
    destruct (Hinv msg Hin) as (u' & -> & Hm).
    exists u'. split; [reflexivity|]. now apply mem_set_mono.
  - rewrite get_state in *. auto.
  - rewrite index_state in *. auto.
  - destruct (Dict.get (_trainings st) u) as [tr|] eqn:H.
    + destruct (delete_hit_run u env st tr H) as (st2 & Hr & _ & Hd & Hl).
      rewrite Hr in *. simpl in *. rewrite Hd.
      destruct (escapes (tasks st (task tr)) env).
      * rewrite Hl in Hin. auto.
      * rewrite Hl in Hin. apply in_app_or in Hin.
        destruct Hin as [Hin|[<-|[]]]; auto.
        exists u. split; [reflexivity|]. now apply (mem_of_get _ _ tr).
    + rewrite (delete_miss _ _ _ H) in *. auto.
  - auto.
Qed.

Lemma log_holds_only_notes_of_known_jobs_witness :
  exists uuid_,
    "Training A1 has been cancelled" =
      "Training " ++ uuid_ ++ " has been cancelled" /\
    Dict.mem
      (_trainings
         (serve_all [ReqPost "A1" "2019-04-01 10:00:00.000000" 0;
                     ReqDelete "A1" Examples.too_slow]
                    (Handler.init Examples.tasks4)))
      uuid_ = true.
Proof.
  apply (log_holds_only_notes_of_known_jobs
           [ReqPost "A1" "2019-04-01 10:00:00.000000" 0;
            ReqDelete "A1" Examples.too_slow]
           Examples.tasks4 "Training A1 has been cancelled").
  simpl. left. reflexivity.
Defined.

(* ------------------------------------------------------------------ *)
(** ** Answers of [get] and [index] *)

(** X4: [get] answers exactly for the identifiers in the registry, always
    with status 200 and a JSON object; the only exception it ever raises is
    the not-found one; either way the state is left as it was. *)
Theorem get_answers_iff_known :
  forall st uuid_,
    ((exists resp, fst (Handler.get uuid_ st) = Ok resp) <->
     Dict.mem (_trainings st) uuid_ = true) /\
    (forall resp, fst (Handler.get uuid_ st) = Ok resp ->
       status_code resp = 200 /\ exists d, body resp = JObject d) /\
    (forall e, fst (Handler.get uuid_ st) = Raise e ->
       e = mkExc HTTPNotFound "Not Found") /\
    snd (Handler.get uuid_ st) = st.
Proof.
  intros st uuid_. unfold Dict.mem.
  destruct (Dict.get (_trainings st) uuid_) as [tr|] eqn:H.
  - rewrite (get_hit _ _ _ H). simpl.
    split; [split; eauto|]. split; [|split; [discriminate|reflexivity]].
    intros resp Hr. inversion Hr. simpl. eauto.
  - rewrite (get_miss _ _ H). simpl.
    split; [split; [intros [resp Hr]|]; discriminate|].
    split; [discriminate|]. split; [|reflexivity].
    intros e He. now inversion He.
Qed.

Lemma get_answers_iff_known_witness :
  (exists resp, fst (Handler.get "B1" Examples.st4) = Ok resp) /\
  ~ (exists resp, fst (Handler.get "nonexistent" Examples.st4) = Ok resp).
Proof.
  destruct (get_answers_iff_known Examples.st4 "B1") as (Hhit & _).
  destruct (get_answers_iff_known Examples.st4 "nonexistent") as (Hmiss & _).
  split; [apply (proj2 Hhit); reflexivity|].
  intros Hex. apply (proj1 Hmiss) in Hex. discriminate Hex.
Defined.

Lemma get_of_item {V} (d : Dict.t V) k v :
  In (k, v) d -> exists v', Dict.get d k = Some v'.
Proof.
  induction d as [|[k' v'] d IH]; simpl; [tauto|].
  intros [Heq|Hin].
  - inversion Heq; subst. rewrite String.eqb_refl. eauto.
  - destruct (String.eqb k k'); eauto.
Qed.

(** The keys of a snapshot: three, and [message] after them for an error. *)
Lemma snapshot_keys uuid_ tr s :
  Dict.keys (snapshot_of uuid_ tr s) =
  if failure_seen s then ["date"; "uuid"; "status"; "message"]
  else ["date"; "uuid"; "status"].
Proof. task_cases s; reflexivity. Qed.

(** X5: [index] never raises, in any state: it answers with status 200 and
    an array with one element per record of the registry, none for an empty
    registry; every element is a JSON object (never [null]) whose keys are
    date, uuid, status, followed by message or not; the state is left as it
    was. *)
Theorem index_never_fails :
  forall st,
    exists l,
      Handler.index st = (Ok (mkResponse 200 (JArray l)), st) /\
      length l = length (_trainings st) /\
      (_trainings st = [] -> l = []) /\
      Forall (fun j => exists d,
                j = JObject d /\
                (Dict.keys d = ["date"; "uuid"; "status"] \/
                 Dict.keys d = ["date"; "uuid"; "status"; "message"])) l.
Proof.
  intros st. rewrite index_eq. eexists. split; [reflexivity|].
  split; [now rewrite length_map|].
  split; [now intros ->|].
  apply Forall_map. apply Forall_forall. intros [k v] Hin. simpl.
  destruct (get_of_item _ _ _ Hin) as [tr Hget].
  unfold snapshot. rewrite Hget. simpl.
  eexists. split; [reflexivity|]. rewrite snapshot_keys.
  destruct (failure_seen _); auto.
Qed.

(** X6: the snapshot of a job never holds anything but strings under the
    keys date, uuid and status, in this order, with message after them
    exactly when the task finished with an exception that is true in the
    handler's boolean test; a recorded exception that is false there adds
    no message; the task itself is not part of the snapshot. *)
Theorem snapshot_has_exactly_these_fields :
  forall st uuid_ tr,
    Dict.get (_trainings st) uuid_ = Some tr ->
    exists r,
      Handler.build_train_response uuid_ st = (Ok (Some r), st) /\
      Dict.keys r =
        (["date"; "uuid"; "status"] ++
         (if exc_truthy (recorded_failure (tasks st (task tr)))
          then ["message"] else []))%list /\
      Forall (fun kv => exists s, snd kv = JString s) r.
Proof.
  intros st uuid_ tr H.
  exists (snapshot_of uuid_ tr (tasks st (task tr))).
  split; [now apply build_train_response_snapshot|].
  split.
  - rewrite snapshot_keys. unfold failure_seen.
    now destruct (exc_truthy _).
  - task_cases (tasks st (task tr)); simpl;
      repeat constructor; simpl; eauto.
Qed.

Lemma snapshot_has_exactly_these_fields_witness :
  (exists r,
     Handler.build_train_response "B1" Examples.st4 = (Ok (Some r), Examples.st4) /\
     Dict.keys r = ["date"; "uuid"; "status"; "message"] /\
     Forall (fun kv => exists s, snd kv = JString s) r) /\
  (exists r,
     Handler.build_train_response "B1" Examples.quietly_failed_job =
       (Ok (Some r), Examples.quietly_failed_job) /\
     Dict.keys r = ["date"; "uuid"; "status"] /\
     Forall (fun kv => exists s, snd kv = JString s) r).
Proof.
  split.
  - apply (snapshot_has_exactly_these_fields Examples.st4 "B1"
             (mkTraining "2019-04-01 10:00:02.000000" 2)).
    reflexivity.
  - apply (snapshot_has_exactly_these_fields Examples.quietly_failed_job "B1"
             (mkTraining "2019-04-01 10:00:00.000000" 0)).
    reflexivity.
Defined.

(* ------------------------------------------------------------------ *)
(** ** Submitting again, and counting *)

Lemma mem_set {V} (d : Dict.t V) k k' v :
  Dict.mem (Dict.set d k v) k' = (String.eqb k' k || Dict.mem d k')%bool.
Proof.
  unfold Dict.mem.
  destruct (String.eqb k' k) eqn:E.
  - apply String.eqb_eq in E. subst. now rewrite get_set_same.
  - apply String.eqb_neq in E. now rewrite get_set_other.
Qed.

Lemma length_set {V} (d : Dict.t V) k v :
  length (Dict.set d k v) = if Dict.mem d k then length d else S (length d).
Proof.
  pose proof (keys_set_cases d k v) as H.
  apply (f_equal (@length string)) in H.
  unfold Dict.keys in H. rewrite length_map in H. rewrite H.
  destruct (Dict.mem d k); [now rewrite length_map|].
  rewrite length_app, length_map. simpl. lia.
Qed.

(** X7: a [post] under an identifier that is already in the registry
    overwrites that record where it stands: the keys, their order and their
    number stay as they were, the record now holds the new date and the new
    task, and no task is touched, so the task the identifier stood for
    before is neither cancelled nor reachable through the registry under
    that identifier any more. *)
Theorem post_on_known_id_overwrites_in_place :
  forall st uuid_ now train_task old,
    Dict.get (_trainings st) uuid_ = Some old ->
    let st' := snd (Handler.post uuid_ now train_task st) in
    Dict.keys (_trainings st') = Dict.keys (_trainings st) /\
    length (_trainings st') = length (_trainings st) /\
    Dict.get (_trainings st') uuid_ = Some (mkTraining now train_task) /\
    (forall t, tasks st' t = tasks st t) /\
    Handler.get uuid_ st' =
      (Ok (json_response
             (JObject (snapshot_of uuid_ (mkTraining now train_task)
                         (tasks st train_task)))), st').
Proof.
  intros st uuid_ now train_task old H st'. subst st'.
  rewrite post_eq. simpl snd.
  set (st' := set_trainings _ st).
  assert (Hm : Dict.mem (_trainings st) uuid_ = true)
    by now apply (mem_of_get _ _ old).
  assert (Hget : Dict.get (_trainings st') uuid_ = Some (mkTraining now train_task))
    by apply get_set_same.
  split; [simpl; now rewrite keys_set_cases, Hm|].
  split; [simpl; now rewrite length_set, Hm|].
  split; [exact Hget|].
  split; [reflexivity|].
  now rewrite (get_hit _ _ _ Hget).
Qed.

Lemma post_on_known_id_overwrites_in_place_witness :
  let st' := snd (Handler.post "B1" "2019-04-02 09:00:00.000000" 7 Examples.st4) in
  Dict.keys (_trainings st') = ["A1"; "A2"; "B1"; "C1"] /\
  length (_trainings st') = 4 /\
  Dict.get (_trainings st') "B1" = Some (mkTraining "2019-04-02 09:00:00.000000" 7).
Proof.
  destruct (post_on_known_id_overwrites_in_place
              Examples.st4 "B1" "2019-04-02 09:00:00.000000" 7
              (mkTraining "2019-04-01 10:00:02.000000" 2) eq_refl)
    as (Hk & Hl & Hg & _).
  intros st'. split; [exact Hk|]. split; [exact Hl|exact Hg].
Defined.

Lemma submit_all_length subs : forall st,
  length (_trainings (submit_all subs st)) <= length (_trainings st) + length subs /\
  (length (_trainings (submit_all subs st)) = length (_trainings st) + length subs <->
   NoDup (map sub_uuid subs) /\
   forall s, In s subs -> Dict.mem (_trainings st) (sub_uuid s) = false).
Proof.
  induction subs as [|s subs IH]; intros st; simpl.
  - split; [lia|]. split; [intros _; split; [constructor|tauto]|intros _; lia].
  - rewrite post_eq. simpl snd.
    set (st1 := set_trainings _ st).
    destruct (IH st1) as [Hle Hiff].
    assert (Hlen : length (_trainings st1) =
                   if Dict.mem (_trainings st) (sub_uuid s)
                   then length (_trainings st) else S (length (_trainings st)))
      by apply length_set.
    assert (Hmem : forall k, Dict.mem (_trainings st1) k =
                     (String.eqb k (sub_uuid s) || Dict.mem (_trainings st) k)%bool)
      by (intros k; apply mem_set).
    destruct (Dict.mem (_trainings st) (sub_uuid s)) eqn:Hm.
    + split; [lia|]. split; [lia|].
      intros [_ Hfresh]. rewrite Hfresh in Hm by now left. discriminate.
    + split; [lia|].
      rewrite Hlen in Hiff.
      split.
      * intros Heq.
        destruct (proj1 Hiff) as [Hnd Hfresh]; [lia|].
        split.
        -- constructor; [|exact Hnd].
           intros Hin. apply in_map_iff in Hin. destruct Hin as (s' & He & Hin).
           specialize (Hfresh s' Hin). rewrite Hmem, He, String.eqb_refl in Hfresh.
           discriminate.
        -- intros s' [<-|Hin]; [exact Hm|].
           specialize (Hfresh s' Hin). rewrite Hmem in Hfresh.
           now apply orb_false_iff in Hfresh.
      * intros [Hnd Hfresh]. inversion Hnd as [|? ? Hnotin Hnd']; subst.
        assert (length (_trainings (submit_all subs st1)) =
                S (length (_trainings st)) + length subs); [|lia].
        apply (proj2 Hiff). split; [exact Hnd'|].
        intros s' Hin. rewrite Hmem. apply orb_false_iff. split.
        -- apply String.eqb_neq. intros He. apply Hnotin.
           rewrite <- He. now apply in_map.
        -- apply Hfresh. now right.
Qed.

(** X8: after N submissions to a new handler the listing has at most N
    entries, and it has exactly N precisely when the N identifiers were
    pairwise distinct. *)
Theorem listing_counts_distinct_identifiers :
  forall subs tasks0,
    let st := submit_all subs (Handler.init tasks0) in
    exists l,
      Handler.index st = (Ok (json_response (JArray l)), st) /\
      length l <= length subs /\
      (length l = length subs <-> NoDup (map sub_uuid subs)).
Proof.
  intros subs tasks0 st.
  destruct (submit_all_length subs (Handler.init tasks0)) as [Hle Hiff].
  fold st in Hle, Hiff. simpl in Hle, Hiff.
  rewrite index_eq. eexists. split; [reflexivity|].
  rewrite length_map. split; [exact Hle|].
  rewrite Hiff. split; [tauto|]. intros Hnd. split; [exact Hnd|reflexivity].
Qed.

Lemma listing_counts_distinct_identifiers_witness :
  exists l,
    Handler.index Examples.st4 = (Ok (json_response (JArray l)), Examples.st4) /\
    length l = 4.
Proof.
  destruct (listing_counts_distinct_identifiers Examples.subs4 Examples.tasks4)
    as (l & Hl & _ & Hiff).
  exists l. split; [exact Hl|]. apply (proj2 Hiff). exact NoDup_subs4.
Defined.

(** X9: submitting under an identifier that is not in the registry yet
    appends the snapshot of the new job to the listing and leaves the
    entries that were listed before as they were. *)
Theorem post_appends_to_listing :
  forall st uuid_ now train_task l,
    Dict.get (_trainings st) uuid_ = None ->
    fst (Handler.index st) = Ok (json_response (JArray l)) ->
    let st' := snd (Handler.post uuid_ now train_task st) in
    fst (Handler.index st') =
      Ok (json_response
            (JArray (l ++ [JObject (snapshot_of uuid_ (mkTraining now train_task)
                                      (tasks st train_task))]))).
Proof.
  intros st uuid_ now train_task l Hfresh Hl st'. subst st'.
  rewrite index_eq in Hl. simpl in Hl. inversion Hl as [Hl']. clear Hl.
  rewrite post_eq. simpl snd. rewrite index_eq. simpl fst.
  set (st' := set_trainings _ st). simpl _trainings.
  rewrite (set_fresh _ _ _ Hfresh), map_app. simpl map.
  apply (f_equal (fun x => Ok (json_response (JArray x)))).
  apply (f_equal2 (@app Json)).
  - apply map_ext_in. intros [k v] Hin. simpl.
    unfold snapshot. simpl.
    assert (Hk : k <> uuid_).
    { intros ->. destruct (get_of_item _ _ _ Hin) as [v' Hv]. congruence. }
    now rewrite get_set_other.
  - unfold snapshot. simpl. now rewrite get_set_same.
Qed.

Lemma post_appends_to_listing_witness :
  exists l,
    fst (Handler.index Examples.st4) = Ok (json_response (JArray l)) /\
    fst (Handler.index
           (snd (Handler.post "D1" "2019-04-01 11:00:00.000000" 4 Examples.st4))) =
      Ok (json_response
            (JArray (l ++ [JObject [("date", JString "2019-04-01 11:00:00.000000");
                                    ("uuid", JString "D1");
                                    ("status", JString "running")]]))).
Proof.
  eexists. split; [reflexivity|].
  apply (post_appends_to_listing Examples.st4 "D1"
           "2019-04-01 11:00:00.000000" 4); reflexivity.
Defined.

(* ------------------------------------------------------------------ *)
(** ** More on [delete] *)

Lemma delete_tasks_elsewhere uuid_ env st tr t :
  Dict.get (_trainings st) uuid_ = Some tr ->
  t <> task tr ->
  tasks (snd (Handler.delete uuid_ env st)) t = tasks st t.
Proof.
  intros H Hne. now apply (delete_hit_only_task uuid_ env st tr H).
Qed.

(** X10: [delete] on a job whose task has already finished changes the
    state of no task and does not depend on what the task would do while
    awaited: it answers with the done snapshot after a result, and raises
    [CancelledError] after a cancellation. *)
Theorem delete_on_finished_job_is_no_cancellation :
  forall st uuid_ tr o env,
    Dict.get (_trainings st) uuid_ = Some tr ->
    tasks st (task tr) = Terminated o ->
    (forall t, tasks (snd (Handler.delete uuid_ env st)) t = tasks st t) /\
    (forall env', fst (Handler.delete uuid_ env' st) =
                  fst (Handler.delete uuid_ env st)) /\
    (o = TResult ->
     fst (Handler.delete uuid_ env st) =
       Ok (json_response
             (JObject [("date", JString (date tr)); ("uuid", JString uuid_);
                       ("status", JString "done")]))) /\
    (o = TCancelled ->
     fst (Handler.delete uuid_ env st) = Raise (mkExc CancelledError "")).
Proof.
  intros st uuid_ tr o env H Hs.
  assert (Hfst : forall env0,
            fst (Handler.delete uuid_ env0 st) =
            match escapes (Terminated o) env0 with
            | Some e => Raise e
            | None => Ok (json_response
                            (JObject (snapshot_of uuid_ tr (Terminated o))))
            end).
  { intros env0.
    destruct (delete_hit_run uuid_ env0 st tr H) as (st2 & Hr & _).
    rewrite Hr, Hs. reflexivity. }
  split; [|split; [|split]].
  - intros t. destruct (Nat.eq_dec t (task tr)) as [->|Hne].
    + destruct (delete_hit uuid_ env st tr H) as [Ht _].
      rewrite Ht, Hs. reflexivity.
    + now apply (delete_tasks_elsewhere uuid_ env st tr).
  - intros env'. rewrite !Hfst. reflexivity.
  - intros ->. rewrite Hfst. reflexivity.
  - intros ->. rewrite Hfst. reflexivity.
Qed.

Lemma delete_on_finished_job_is_no_cancellation_witness :
  tasks (snd (Handler.delete "A2" Examples.too_slow Examples.st4)) 1 =
    Terminated TResult /\
  fst (Handler.delete "A2" Examples.too_slow Examples.st4) =
    Ok (json_response
          (JObject [("date", JString "2019-04-01 10:00:01.000000");
                    ("uuid", JString "A2");
                    ("status", JString "done")])).
Proof.
  destruct (delete_on_finished_job_is_no_cancellation
              Examples.st4 "A2" (mkTraining "2019-04-01 10:00:01.000000" 1)
              TResult Examples.too_slow eq_refl eq_refl)
    as (Hsame & _ & Hdone & _).
  split; [apply Hsame|apply Hdone; reflexivity].
Defined.

Lemma leaves_not_timeout r e :
  leaves r = Some e -> is_TimeoutError e = false.
Proof.
  destruct r as [[]|e0]; simpl; [discriminate|].
  destruct (is_TimeoutError e0) eqn:E; [discriminate|].
  intros He. inversion He. now subst.
Qed.

Lemma escapes_not_timeout s env e :
  escapes s env = Some e -> is_TimeoutError e = false.
Proof.
  unfold escapes. destruct s as [b|o]; [|apply leaves_not_timeout].
  destruct (Nat.ltb _ _); apply leaves_not_timeout.
Qed.

(** X11: no [TimeoutError] ever leaves [delete], for any identifier, state
    and behaviour of the task.  This holds for the one raised when the
    grace period runs out and also for one the work itself raised: a job
    that failed with a [TimeoutError] is answered with its snapshot (the
    error one, or the done one if the exception object is false in the
    handler's test), while any other failure is re-raised. *)
Theorem delete_never_raises_timeout :
  forall st uuid_ env,
    (forall e, fst (Handler.delete uuid_ env st) = Raise e ->
               is_TimeoutError e = false) /\
    (forall tr e,
       Dict.get (_trainings st) uuid_ = Some tr ->
       tasks st (task tr) = Terminated (TException e) ->
       fst (Handler.delete uuid_ env st) =
         if is_TimeoutError e
         then Ok (json_response
                    (JObject
                       (if exc_bool e
                        then [("date", JString (date tr)); ("uuid", JString uuid_);
                              ("status", JString "error");
                              ("message", JString (exc_str e))]
                        else [("date", JString (date tr)); ("uuid", JString uuid_);
                              ("status", JString "done")])))
         else Raise e).
Proof.
  intros st uuid_ env. split.
  - intros e He.
    destruct (Dict.get (_trainings st) uuid_) as [tr|] eqn:H.
    + destruct (delete_hit_run uuid_ env st tr H) as (st2 & Hr & _).
      rewrite Hr in He. simpl in He.
      destruct (escapes (tasks st (task tr)) env) as [e'|] eqn:Hesc;
        [|discriminate].
      inversion He; subst. now apply (escapes_not_timeout _ _ _ Hesc).
    + rewrite (delete_miss _ _ _ H) in He. now inversion He.
  - intros tr e H Hs.
    destruct (delete_hit_run uuid_ env st tr H) as (st2 & Hr & _).
    rewrite Hr, Hs. simpl.
    destruct (is_TimeoutError e); [|reflexivity].
    destruct e as [c m [|]]; reflexivity.
Qed.

Lemma delete_never_raises_timeout_witness :
  is_TimeoutError Examples.bad_data = false /\
  fst (Handler.delete "B1" Examples.too_slow Examples.st4) =
    Raise Examples.bad_data.
Proof.
  destruct (delete_never_raises_timeout Examples.st4 "B1" Examples.too_slow)
    as (Hno & Hfail).
  split.
  - apply Hno. reflexivity.
  - apply (Hfail (mkTraining "2019-04-01 10:00:02.000000" 2) Examples.bad_data);
      reflexivity.
Defined.

Lemma derived_status_cancelled s :
  derived_status s = "cancelled" -> s = Terminated TCancelled.
Proof.
  rewrite derived_status_cases. task_cases s; simpl; try discriminate.
  reflexivity.
Qed.

(** X12: when [delete] answers with a snapshot whose status is cancelled,
    the task was pending and the grace period ran out before it ended; a
    task that ends cancelled within the grace period never gets this
    answer. *)
Theorem delete_answers_cancelled_only_after_timeout :
  forall st uuid_ tr env resp d,
    Dict.get (_trainings st) uuid_ = Some tr ->
    fst (Handler.delete uuid_ env st) = Ok resp ->
    body resp = JObject d ->
    Dict.get d "status" = Some (JString "cancelled") ->
    (exists b, tasks st (task tr) = Pending b) /\
    Handler.grace_period <= delay env /\
    joined env = true /\
    outcome env = TCancelled.
Proof.
  intros st uuid_ tr env resp d H Hok Hbody Hstatus.
  destruct (delete_hit_run uuid_ env st tr H) as (st2 & Hr & _).
  rewrite Hr in Hok. simpl in Hok.
  destruct (escapes (tasks st (task tr)) env) as [e|] eqn:Hesc; [discriminate|].
  inversion Hok; subst resp. simpl in Hbody. inversion Hbody; subst d.
  rewrite snapshot_status in Hstatus. inversion Hstatus as [Hd].
  apply derived_status_cancelled in Hd.
  unfold escapes in Hesc. unfold after_await in Hd.
  destruct (tasks st (task tr)) as [b|o].
  - destruct (Nat.ltb (delay env) Handler.grace_period) eqn:Hlt.
    + inversion Hd as [Ho]. rewrite Ho in Hesc. discriminate Hesc.
    + apply Nat.ltb_ge in Hlt.
      destruct (joined env); [|discriminate Hd].
      inversion Hd. eauto.
  - inversion Hd; subst o. discriminate Hesc.
Qed.

Lemma delete_answers_cancelled_only_after_timeout_witness :
  (exists b, tasks Examples.st4 0 = Pending b) /\
  Handler.grace_period <= 7 /\
  joined Examples.too_slow = true /\
  outcome Examples.too_slow = TCancelled.
Proof.
  apply (delete_answers_cancelled_only_after_timeout
           Examples.st4 "A1" (mkTraining "2019-04-01 10:00:00.000000" 0)
           Examples.too_slow
           (json_response
              (JObject [("date", JString "2019-04-01 10:00:00.000000");
                        ("uuid", JString "A1");
                        ("status", JString "cancelled")]))
           [("date", JString "2019-04-01 10:00:00.000000");
            ("uuid", JString "A1");
            ("status", JString "cancelled")]);
    reflexivity.
Defined.

(** X13: what [delete] does when the grace period runs out on a pending
    task.  If the task then ends cancelled, [delete] logs its note and
    answers: with status cancelled when [wait_for] waited for the task to
    end, with status running, the task being left pending with its
    cancellation requested, when it did not.  Under a [wait_for] that
    hands on what the task ended with, a late result is answered with the
    done snapshot, and a late exception other than a [TimeoutError] leaves
    [delete], with nothing logged. *)
Theorem delete_after_grace_period :
  forall st uuid_ tr b env,
    Dict.get (_trainings st) uuid_ = Some tr ->
    tasks st (task tr) = Pending b ->
    Handler.grace_period <= delay env ->
    let st' := snd (Handler.delete uuid_ env st) in
    let answer (status : string) :=
      Ok (json_response
            (JObject [("date", JString (date tr)); ("uuid", JString uuid_);
                      ("status", JString status)])) in
    let noted :=
      (log st ++ [("Training " ++ uuid_ ++ " has been cancelled")%string])%list in
    (outcome env = TCancelled ->
     fst (Handler.delete uuid_ env st) =
       answer (if joined env then "cancelled" else "running") /\
     tasks st' (task tr) =
       (if joined env then Terminated TCancelled else Pending true) /\
     log st' = noted) /\
    (policy env = JoinThenResult -> outcome env = TResult ->
     fst (Handler.delete uuid_ env st) = answer "done" /\ log st' = noted) /\
    (forall e,
       policy env = JoinThenResult -> outcome env = TException e ->
       is_TimeoutError e = false ->
       fst (Handler.delete uuid_ env st) = Raise e /\ log st' = log st).
Proof.
  intros st uuid_ tr b env H Hs Hle st' answer noted. subst st' answer noted.
  apply Nat.ltb_ge in Hle.
  destruct (delete_hit_run uuid_ env st tr H) as (st2 & Hr & Ht & _ & Hl).
  rewrite Hr. simpl fst. simpl snd.
  rewrite Hs in *. unfold escapes, after_await in *. rewrite Hle in *.
  split; [|split].
  - intros Ho. rewrite Ho in *.
    assert (Hlate : leaves (late_result (policy env) TCancelled) = None)
      by (destruct (policy env); reflexivity).
    rewrite Hlate in *. rewrite Ht.
    destruct (joined env); auto.
  - intros Hp Ho. rewrite Hp, Ho in *. simpl in *.
    unfold joined in *. rewrite Hp in *. auto.
  - intros e Hp Ho He. rewrite Hp, Ho in *. simpl in *.
    rewrite He in *. auto.
Qed.

Lemma delete_after_grace_period_witness :
  fst (Handler.delete "A1" Examples.too_slow Examples.st4) =
    Ok (json_response
          (JObject [("date", JString "2019-04-01 10:00:00.000000");
                    ("uuid", JString "A1");
                    ("status", JString "cancelled")])) /\
  log (snd (Handler.delete "A1" Examples.too_slow Examples.st4)) =
    ["Training A1 has been cancelled"] /\
  fst (Handler.delete "A1" Examples.fails_late Examples.st4) =
    Raise Examples.bad_data /\
  log (snd (Handler.delete "A1" Examples.fails_late Examples.st4)) = [].
Proof.
  assert (Hle : Handler.grace_period <= 7)
    by (unfold Handler.grace_period; lia).
  destruct (delete_after_grace_period
              Examples.st4 "A1" (mkTraining "2019-04-01 10:00:00.000000" 0)
              false Examples.too_slow eq_refl eq_refl Hle)
    as (Hcancelled & _ & _).
  destruct (delete_after_grace_period
              Examples.st4 "A1" (mkTraining "2019-04-01 10:00:00.000000" 0)
              false Examples.fails_late eq_refl eq_refl Hle)
    as (_ & _ & Hraise).
  destruct (Hcancelled eq_refl) as (Ha & _ & Hl).
  destruct (Hraise Examples.bad_data eq_refl eq_refl eq_refl) as (Hr & Hl').
  split; [exact Ha|]. split; [exact Hl|]. split; [exact Hr|exact Hl'].
Defined.

Lemma app_one_neq {A} (l : list A) (x : A) : (l ++ [x])%list <> l.
Proof.
  intros H. apply (f_equal (@length A)) in H.
  rewrite length_app in H. simpl in H. lia.
Qed.

(** X14: [delete] logs its note exactly when it answers: a [delete] that
    raises, for an unknown identifier or because the awaited task re-raised,
    leaves the log as it was, and one that answers has added exactly one
    line, the note for its identifier, at the end. *)
Theorem delete_logs_iff_it_answers :
  forall st uuid_ env,
    let st' := snd (Handler.delete uuid_ env st) in
    ((exists resp, fst (Handler.delete uuid_ env st) = Ok resp) <->
     log st' = (log st ++ [("Training " ++ uuid_ ++ " has been cancelled")%string])%list) /\
    ((exists e, fst (Handler.delete uuid_ env st) = Raise e) <->
     log st' = log st).
Proof.
  intros st uuid_ env st'. subst st'.
  destruct (Dict.get (_trainings st) uuid_) as [tr|] eqn:H.
  - destruct (delete_hit_run uuid_ env st tr H) as (st2 & Hr & _ & _ & Hl).
    rewrite Hr. simpl fst. simpl snd. rewrite Hl.
    destruct (escapes (tasks st (task tr)) env) as [e|].
    + split; split; eauto.
      * intros [resp Hresp]. discriminate.
      * intros Heq. symmetry in Heq. now apply app_one_neq in Heq.
    + split; split; eauto.
      * intros [e He]. discriminate.
      * intros Heq. now apply app_one_neq in Heq.
  - rewrite (delete_miss _ _ _ H). simpl.
    split; split; eauto.
    + intros [resp Hresp]. discriminate.
    + intros Heq. symmetry in Heq. now apply app_one_neq in Heq.
Qed.

Lemma delete_logs_iff_it_answers_witness :
  log (snd (Handler.delete "C1" Examples.honours_quickly Examples.running_job)) =
    log Examples.running_job /\
  exists resp, fst (Handler.delete "A2" Examples.too_slow Examples.st4) = Ok resp.
Proof.
  destruct (delete_logs_iff_it_answers
              Examples.running_job "C1" Examples.honours_quickly) as (_ & Hraise).
  destruct (delete_logs_iff_it_answers Examples.st4 "A2" Examples.too_slow)
    as (Hans & _).
  split.
  - apply (proj1 Hraise). eexists. reflexivity.
  - apply (proj2 Hans). reflexivity.
Defined.

(* ------------------------------------------------------------------ *)
(** ** The identifiers a registry holds *)

Lemma serve_all_mem rs : forall st k,
  Dict.mem (_trainings (serve_all rs st)) k = true <->
  Dict.mem (_trainings st) k = true \/
  exists now train_task, In (ReqPost k now train_task) rs.
Proof.
  induction rs as [|r rs IH]; intros st k; simpl.
  - split; [tauto|]. intros [H|(n & t & [])]. exact H.
  - rewrite IH, serve_trainings. split.
    + intros [Hm|(n & t & Hin)]; [|right; eauto].
      destruct r as [u n t|u| |u env|f]; auto.
      rewrite mem_set in Hm. apply orb_true_iff in Hm.
      destruct Hm as [He|Hm]; [|auto].
      apply String.eqb_eq in He. subst. right. eauto.
    + intros [Hm|(n & t & [He|Hin])].
      * left. destruct r as [u n t|u| |u env|f]; auto.
        now apply mem_set_mono.
      * subst r. left. rewrite mem_set, String.eqb_refl. reflexivity.
      * right. eauto.
Qed.

(** X15: whatever requests a handler has served since it was built, its
    registry holds exactly the identifiers that were submitted: [post] is
    the only way in, and there is no way out. *)
Theorem registry_holds_exactly_the_submitted_ids :
  forall rs tasks0 uuid_,
    Dict.mem (_trainings (serve_all rs (Handler.init tasks0))) uuid_ = true <->
    exists now train_task, In (ReqPost uuid_ now train_task) rs.
Proof.
  intros rs tasks0 uuid_. rewrite serve_all_mem. simpl.
  split; [intros [H|H]; [discriminate|exact H]|auto].
Qed.

Lemma registry_holds_exactly_the_submitted_ids_witness :
  Dict.mem
    (_trainings
       (serve_all [ReqGet "A1";
                   ReqPost "A1" "2019-04-01 10:00:00.000000" 0;
                   ReqDelete "A1" Examples.honours_quickly;
                   ReqIndex]
                  (Handler.init Examples.tasks4)))
    "A1" = true.
Proof.
  apply (proj2 (registry_holds_exactly_the_submitted_ids
                  [ReqGet "A1";
                   ReqPost "A1" "2019-04-01 10:00:00.000000" 0;
                   ReqDelete "A1" Examples.honours_quickly;
                   ReqIndex]
                  Examples.tasks4 "A1")).
  exists "2019-04-01 10:00:00.000000", 0. simpl. auto.
Defined.

(* ------------------------------------------------------------------ *)
(** ** Routes *)

Lemma chars_append (a b : string) :
  list_ascii_of_string (a ++ b) =
  (list_ascii_of_string a ++ list_ascii_of_string b)%list.
Proof. induction a as [|c a IH]; simpl; [reflexivity|now rewrite IH]. Qed.

Lemma chars_inj (a b : string) :
  list_ascii_of_string a = list_ascii_of_string b -> a = b.
Proof.
  intros H. apply (f_equal string_of_list_ascii) in H.
  now rewrite !string_of_list_ascii_of_string in H.
Qed.

Lemma wrap_inj (pre suf a b : string) :
  pre ++ a ++ suf = pre ++ b ++ suf -> a = b.
Proof.
  intros H. apply (f_equal list_ascii_of_string) in H.
  rewrite !chars_append in H.
  apply app_inv_head, app_inv_tail in H. now apply chars_inj.
Qed.

Lemma train_path_inj a b : train_path a = train_path b -> a = b.
Proof. apply wrap_inj. Qed.

Lemma train_uuid_path_inj a b : train_uuid_path a = train_uuid_path b -> a = b.
Proof. apply wrap_inj. Qed.

Lemma train_path_not_uuid_path a b : train_path a <> train_uuid_path b.
Proof.
  unfold train_path, train_uuid_path. intros H.
  apply (f_equal list_ascii_of_string) in H.
  rewrite !chars_append in H. apply app_inv_head in H.
  apply (f_equal (@rev _)) in H. rewrite !rev_app_distr in H.
  simpl in H. discriminate H.
Qed.

(** The routes of one model: POST, HEAD and GET on the training path,
    HEAD, GET and DELETE on the path of one training. *)
Lemma add_model_routes_eq router name :
  add_model_routes router name =
  (router ++ [mkRoute POST (train_path name) name hdlr_post;
              mkRoute HEAD (train_path name) name hdlr_index;
              mkRoute GET (train_path name) name hdlr_index;
              mkRoute HEAD (train_uuid_path name) name hdlr_get;
              mkRoute GET (train_uuid_path name) name hdlr_get;
              mkRoute DELETE (train_uuid_path name) name hdlr_delete])%list.
Proof.
  unfold add_model_routes, add_post, add_get, add_delete.
  now rewrite <- !app_assoc.
Qed.

Lemma setup_routes_eq {V} (models : Dict.t V) : forall router,
  setup_routes models router =
  (router ++ flat_map (add_model_routes []) (Dict.keys models))%list.
Proof.
  induction models as [|[name v] models IH]; intros router; simpl.
  - now rewrite app_nil_r.
  - rewrite IH, !add_model_routes_eq. simpl. now rewrite <- app_assoc.
Qed.

Lemma in_model_routes r names :
  In r (flat_map (add_model_routes []) names) ->
  In (owner r) names /\
  exists m, method r = m /\
    (path r = train_path (owner r) /\ (m = POST \/ m = HEAD \/ m = GET) \/
     path r = train_uuid_path (owner r) /\ (m = HEAD \/ m = GET \/ m = DELETE)).
Proof.
  intros H. apply in_flat_map in H. destruct H as (n & Hn & Hr).
  rewrite add_model_routes_eq in Hr. cbn [app In] in Hr.
  destruct Hr as [<-|[<-|[<-|[<-|[<-|[<-|[]]]]]]]; cbn [owner method path];
    (split; [exact Hn|eexists; split; [reflexivity|tauto]]).
Qed.

Lemma route_key_owner r1 r2 names1 names2 :
  In r1 (flat_map (add_model_routes []) names1) ->
  In r2 (flat_map (add_model_routes []) names2) ->
  route_key r1 = route_key r2 -> owner r1 = owner r2.
Proof.
  intros H1 H2 Hk.
  destruct (in_model_routes _ _ H1) as [_ (m1 & _ & K1)].
  destruct (in_model_routes _ _ H2) as [_ (m2 & _ & K2)].
  pose proof (f_equal snd Hk) as Hp. unfold route_key in Hp. cbn [snd] in Hp.
  destruct K1 as [[P1 _]|[P1 _]], K2 as [[P2 _]|[P2 _]];
    rewrite P1, P2 in Hp;
    first [ now apply train_path_inj
          | now apply train_uuid_path_inj
          | now apply train_path_not_uuid_path in Hp
          | symmetry in Hp; now apply train_path_not_uuid_path in Hp ].
Qed.

Lemma model_routes_NoDup names :
  NoDup names -> NoDup (map route_key (flat_map (add_model_routes []) names)).
Proof.
  induction 1 as [|n names Hnotin Hnd IH]; cbn [flat_map]; [constructor|].
  rewrite map_app. apply NoDup_app; [|exact IH|].
  - rewrite add_model_routes_eq. cbn [app map].
    assert (Hne := train_path_not_uuid_path n n).
    repeat constructor; cbn [In]; intros Hin;
      unfold route_key in Hin; cbn [method path] in Hin;
      repeat match goal with
             | H : _ \/ _ |- _ => destruct H as [H|H]
             | H : (_, _) = (_, _) |- _ =>
                 pose proof (f_equal fst H) as Hm;
                 pose proof (f_equal snd H) as Hp;
                 cbn [fst snd] in Hm, Hp; clear H
             end;
      try discriminate; try contradiction; try (symmetry in Hp; contradiction).
  - intros k Hk1 Hk2.
    apply in_map_iff in Hk1. destruct Hk1 as (r1 & He1 & Hr1).
    apply in_map_iff in Hk2. destruct Hk2 as (r2 & He2 & Hr2).
    assert (Hr1' : In r1 (flat_map (add_model_routes []) [n]))
      by (cbn [flat_map]; now rewrite app_nil_r).
    assert (Ho : owner r1 = owner r2)
      by (apply (route_key_owner r1 r2 [n] names); congruence).
    destruct (in_model_routes _ _ Hr1') as [[Hn|[]] _].
    destruct (in_model_routes _ _ Hr2) as [Hin _].
    apply Hnotin. congruence.
Qed.

(** X16: on the models of [V2_MODELS] (a dictionary, so the names are
    distinct) [setup_routes] keeps the routes the application had, in
    front, and adds six per model, since each [add_get] registers HEAD
    along with GET; no two of the added routes have the same method and
    path; each model gets POST, HEAD and GET on [/models/<name>/train] and
    HEAD, GET and DELETE on [/models/<name>/train/{uuid}], bound to the
    methods of the handler built for that model; and every added route
    belongs to one of the models. *)
Theorem setup_routes_adds_distinct_routes_per_model :
  forall (V : Type) (V2_MODELS : Dict.t V) (router : list Route),
    NoDup (Dict.keys V2_MODELS) ->
    exists added,
      setup_routes V2_MODELS router = (router ++ added)%list /\
      length added = 6 * length V2_MODELS /\
      NoDup (map route_key added) /\
      (forall name, In name (Dict.keys V2_MODELS) ->
         In (mkRoute POST (train_path name) name hdlr_post) added /\
         In (mkRoute HEAD (train_path name) name hdlr_index) added /\
         In (mkRoute GET (train_path name) name hdlr_index) added /\
         In (mkRoute HEAD (train_uuid_path name) name hdlr_get) added /\
         In (mkRoute GET (train_uuid_path name) name hdlr_get) added /\
         In (mkRoute DELETE (train_uuid_path name) name hdlr_delete) added) /\
      (forall r, In r added -> In (owner r) (Dict.keys V2_MODELS)).
Proof.
  intros V V2_MODELS router Hnd.
  exists (flat_map (add_model_routes []) (Dict.keys V2_MODELS)).
  split; [apply setup_routes_eq|].
  split.
  { unfold Dict.keys. induction V2_MODELS as [|[n v] ms IH]; [reflexivity|].
    inversion Hnd; subst. cbn [map fst flat_map]. rewrite length_app, IH by assumption.
    rewrite add_model_routes_eq. simpl. lia. }
  split; [now apply model_routes_NoDup|].
  split.
  - intros name Hin.
    assert (Hall : forall r, In r (add_model_routes [] name) ->
              In r (flat_map (add_model_routes []) (Dict.keys V2_MODELS)))
      by (intros r Hr; apply in_flat_map; eauto).
    rewrite add_model_routes_eq in Hall.
    repeat split; apply Hall; simpl; auto 10.
  - intros r Hr. now apply in_model_routes in Hr.
Qed.

Lemma setup_routes_adds_distinct_routes_per_model_witness :
  exists added,
    setup_routes [("deepaas-test", tt); ("other", tt)] [] = ([] ++ added)%list /\
    length added = 12 /\
    NoDup (map route_key added).
Proof.
  destruct (setup_routes_adds_distinct_routes_per_model
              unit [("deepaas-test", tt); ("other", tt)] [])
    as (added & He & Hl & Hk & _).
  - simpl. repeat constructor; simpl; intuition discriminate.
  - exists added. split; [exact He|]. split; [exact Hl|exact Hk].
Defined.

Lemma index_never_fails_witness :
  exists l,
    Handler.index (Handler.init Examples.tasks4) =
      (Ok (mkResponse 200 (JArray l)), Handler.init Examples.tasks4) /\
    l = [].
Proof.
  destruct (index_never_fails (Handler.init Examples.tasks4))
    as (l & Hl & _ & Hempty & _).
  exists l. split; [exact Hl|]. apply Hempty. reflexivity.
Defined.
